(** * Feedback submission engine: the form component and its validation gate

    A shallow embedding of the customer feedback form
    ([FeedbackForm], [VoiceTextQuestion] and the campaign types) together
    with the properties of its validation gate, response accumulator,
    payload serialisation and submission life cycle.

    React state is modelled by explicit state passing: a component's
    [useState] cells form a record, every event handler is a function on
    that record, and the effects a handler issues (the [fetch] call, the
    [stopRecording] command sent through the recorder ref) are returned next
    to the new state. *)

From Stdlib Require Import ZArith String List Bool Lia DecimalString.
From Stdlib Require QArith_base.
From stdpp Require Import base option list gmap strings.
Import ListNotations.

Local Open Scope string_scope.

(** ** JavaScript values *)

Module JS.

(** The values stored under [Record<string, any>]: what a question input can
    hand to its [onChange]. Numbers are the integers the inputs produce. *)
Inductive JSValue : Type :=
| JUndefined
| JNull
| JBool (b : bool)
| JNum (n : Z)
| JStr (s : string).

(** [!s] on a string is true exactly for the empty string. *)
Definition truthy_string (s : string) : bool :=
  match s with
  | EmptyString => false
  | String _ _ => true
  end.

(** JavaScript truthiness: [undefined], [null], [false], [0] and [""] are
    falsy, everything else is truthy. *)
Definition truthy (v : JSValue) : bool :=
  match v with
  | JUndefined | JNull => false
  | JBool b => b
  | JNum n => negb (n =? 0)%Z
  | JStr s => truthy_string s
  end.

(** [number | null] read in a boolean position: [null] and [0] are falsy. *)
Definition truthy_number (n : option Z) : bool :=
  match n with
  | None => false
  | Some k => negb (k =? 0)%Z
  end.

(** [string | undefined] read in a boolean position. *)
Definition truthy_opt_string (s : option string) : bool :=
  match s with
  | None => false
  | Some t => truthy_string t
  end.

(** [boolean | undefined] read in a boolean position. *)
Definition truthy_opt_bool (b : option bool) : bool :=
  match b with
  | None => false
  | Some t => t
  end.

(** A [Blob] is opaque to the form; an object, hence always truthy. *)
Definition Blob : Type := list Byte.byte.

(** [obj[key]]: an absent own property reads [undefined]. Keys are assumed
    not to name a property of [Object.prototype]. *)
Definition get (obj : gmap string JSValue) (key : string) : JSValue :=
  default JUndefined (obj !! key).

(** [Object.keys(obj)]. *)
Definition Object_keys (obj : gmap string JSValue) : list string :=
  (map_to_list obj).*1.

(** [n.toString()] for an integer of magnitude below 10^21, where it is
    the decimal numeral; from 10^21 on JavaScript prints an exponent form,
    which is not modelled, so results are only used for integers in that
    range. *)
Definition toString (n : Z) : string :=
  NilZero.string_of_int (Z.to_int n).

#[global] Instance JSValue_eq_dec : EqDecision JSValue.
Proof. solve_decision. Defined.

(** The object [JSON.stringify(obj)] writes: the own properties of [obj]
    whose value is not [undefined] (those are left out of the text). *)
Definition stringified (obj : gmap string JSValue) : gmap string JSValue :=
  filter (fun kv => kv.2 <> JUndefined) obj.

End JS.

Export JS.

(** ** src/types/campaign.ts *)

Module CampaignTypes.

Record Scale : Type := {
  min : Z;
  max : Z;
  minLabel : option string;
  maxLabel : option string
}.

(** [type] is declared as the union ['nps' | 'text' | 'rating' |
    'multiple_choice' | 'yes_no'], but a campaign is data fetched at run
    time, and the form compares the field with [===] against strings; it is
    kept as the string it is. *)
Record CampaignQuestion : Type := {
  q_id : string;
  q_type : string;
  q_text : string;
  required : bool;
  options : option (list string);
  scale : option Scale
}.

(** [requireOrderId] is read by the form but is not part of the declared
    [settings] type, so it may be absent ([undefined]) at run time. *)
Record Settings : Type := {
  allowVoice : bool;
  allowText : bool;
  requireOrderId : option bool
}.

Record Campaign : Type := {
  c_id : string;
  c_name : string;
  company_id : string;
  active : bool;
  start_date : option string;
  end_date : option string;
  include_nps : bool;
  nps_question : option string;
  include_additional_questions : bool;
  questions : list CampaignQuestion;
  settings : Settings;
  created_at : string
}.

End CampaignTypes.

Export CampaignTypes.

(** ** The feedback form component *)

Module FeedbackForm.

(** [FeedbackFormProps]; [companyData] only feeds the heading and the consent
    text and is left out. *)
Record Props : Type := {
  orderId : string;
  companyId : string;
  campaignId : option string;
  campaignData : option Campaign
}.

Inductive FeedbackType : Type := voice | text.

(** The [useState] cells of the component, in declaration order. *)
Record State : Type := {
  npsScore : option Z;
  audioBlob : option Blob;
  textFeedback : string;
  feedbackType : FeedbackType;
  questionResponses : gmap string JSValue;
  isSubmitting : bool;
  submitted : bool;
  error : option string;
  consent : bool;
  showOrderInput : bool;
  localOrderId : string
}.

(** *** Optional chaining on [campaignData] *)

(** [campaignData?.f] in a boolean position: [undefined] when there is no
    campaign. *)
Definition campaign_flag (f : Campaign -> bool) (p : Props) : bool :=
  match campaignData p with
  | None => false
  | Some c => f c
  end.

Definition campaign_questions (p : Props) : list CampaignQuestion :=
  match campaignData p with
  | None => []
  | Some c => questions c
  end.

Definition cfg_allowVoice (p : Props) : bool :=
  campaign_flag (fun c => allowVoice (settings c)) p.

Definition cfg_allowText (p : Props) : bool :=
  campaign_flag (fun c => allowText (settings c)) p.

Definition cfg_requireOrderId (p : Props) : bool :=
  campaign_flag (fun c => truthy_opt_bool (requireOrderId (settings c))) p.

Definition cfg_include_nps (p : Props) : bool :=
  campaign_flag include_nps p.

Definition cfg_include_additional_questions (p : Props) : bool :=
  campaign_flag include_additional_questions p.

(** *** Mount *)

(** The initial values passed to [useState]. *)
Definition init (p : Props) : State := {|
  npsScore := None;
  audioBlob := None;
  textFeedback := "";
  feedbackType := if cfg_allowVoice p then voice else text;
  questionResponses := ∅;
  isSubmitting := false;
  submitted := false;
  error := None;
  consent := false;
  showOrderInput := negb (truthy_string (orderId p));
  localOrderId := orderId p
|}.

(** *** State setters *)

Definition setNpsScore (v : option Z) (s : State) : State := {|
  npsScore := v; audioBlob := audioBlob s; textFeedback := textFeedback s;
  feedbackType := feedbackType s; questionResponses := questionResponses s;
  isSubmitting := isSubmitting s; submitted := submitted s; error := error s;
  consent := consent s; showOrderInput := showOrderInput s;
  localOrderId := localOrderId s |}.

Definition setAudioBlob (v : option Blob) (s : State) : State := {|
  npsScore := npsScore s; audioBlob := v; textFeedback := textFeedback s;
  feedbackType := feedbackType s; questionResponses := questionResponses s;
  isSubmitting := isSubmitting s; submitted := submitted s; error := error s;
  consent := consent s; showOrderInput := showOrderInput s;
  localOrderId := localOrderId s |}.

Definition setTextFeedback (v : string) (s : State) : State := {|
  npsScore := npsScore s; audioBlob := audioBlob s; textFeedback := v;
  feedbackType := feedbackType s; questionResponses := questionResponses s;
  isSubmitting := isSubmitting s; submitted := submitted s; error := error s;
  consent := consent s; showOrderInput := showOrderInput s;
  localOrderId := localOrderId s |}.

Definition setFeedbackType (v : FeedbackType) (s : State) : State := {|
  npsScore := npsScore s; audioBlob := audioBlob s;
  textFeedback := textFeedback s; feedbackType := v;
  questionResponses := questionResponses s;
  isSubmitting := isSubmitting s; submitted := submitted s; error := error s;
  consent := consent s; showOrderInput := showOrderInput s;
  localOrderId := localOrderId s |}.

(** The functional form [setQuestionResponses(prev => ...)]. *)
Definition setQuestionResponses
    (f : gmap string JSValue -> gmap string JSValue) (s : State) : State := {|
  npsScore := npsScore s; audioBlob := audioBlob s;
  textFeedback := textFeedback s; feedbackType := feedbackType s;
  questionResponses := f (questionResponses s);
  isSubmitting := isSubmitting s; submitted := submitted s; error := error s;
  consent := consent s; showOrderInput := showOrderInput s;
  localOrderId := localOrderId s |}.

Definition setIsSubmitting (v : bool) (s : State) : State := {|
  npsScore := npsScore s; audioBlob := audioBlob s;
  textFeedback := textFeedback s; feedbackType := feedbackType s;
  questionResponses := questionResponses s;
  isSubmitting := v; submitted := submitted s; error := error s;
  consent := consent s; showOrderInput := showOrderInput s;
  localOrderId := localOrderId s |}.

Definition setSubmitted (v : bool) (s : State) : State := {|
  npsScore := npsScore s; audioBlob := audioBlob s;
  textFeedback := textFeedback s; feedbackType := feedbackType s;
  questionResponses := questionResponses s;
  isSubmitting := isSubmitting s; submitted := v; error := error s;
  consent := consent s; showOrderInput := showOrderInput s;
  localOrderId := localOrderId s |}.

Definition setError (v : option string) (s : State) : State := {|
  npsScore := npsScore s; audioBlob := audioBlob s;
  textFeedback := textFeedback s; feedbackType := feedbackType s;
  questionResponses := questionResponses s;
  isSubmitting := isSubmitting s; submitted := submitted s; error := v;
  consent := consent s; showOrderInput := showOrderInput s;
  localOrderId := localOrderId s |}.

Definition setConsent (v : bool) (s : State) : State := {|
  npsScore := npsScore s; audioBlob := audioBlob s;
  textFeedback := textFeedback s; feedbackType := feedbackType s;
  questionResponses := questionResponses s;
  isSubmitting := isSubmitting s; submitted := submitted s; error := error s;
  consent := v; showOrderInput := showOrderInput s;
  localOrderId := localOrderId s |}.

Definition setLocalOrderId (v : string) (s : State) : State := {|
  npsScore := npsScore s; audioBlob := audioBlob s;
  textFeedback := textFeedback s; feedbackType := feedbackType s;
  questionResponses := questionResponses s;
  isSubmitting := isSubmitting s; submitted := submitted s; error := error s;
  consent := consent s; showOrderInput := showOrderInput s;
  localOrderId := v |}.

(** *** The response accumulator *)

(** [handleQuestionResponse]: spread the previous object and (re)define the
    one computed key. *)
Definition handleQuestionResponse (questionId : string) (value : JSValue)
    (s : State) : State :=
  setQuestionResponses (fun prev => <[questionId := value]> prev) s.

(** *** The validation gate: the guards that open [handleSubmit] *)

Definition msg_consent : string :=
  "Please accept the consent notice to submit feedback".
Definition msg_nps : string := "Please provide an NPS score".
Definition msg_order : string := "Please provide an order ID".
Definition msg_required : string := "Please answer all required questions".
Definition msg_failed : string :=
  "Failed to submit feedback. Please try again.".

(** [q => q.required && !questionResponses[q.id]] *)
Definition missing (responses : gmap string JSValue) (q : CampaignQuestion)
    : bool :=
  required q && negb (truthy (get responses (q_id q))).

(** [campaignData.questions.some(...)] *)
Definition missingRequired (p : Props) (s : State) : bool :=
  existsb (missing (questionResponses s)) (campaign_questions p).

(** The conditions of the four guards, as written. *)
Definition fails_consent (s : State) : bool := negb (consent s).

Definition fails_nps (p : Props) (s : State) : bool :=
  cfg_include_nps p && negb (truthy_number (npsScore s)).

Definition fails_order (p : Props) (s : State) : bool :=
  negb (truthy_string (localOrderId s)) && showOrderInput s
  && cfg_requireOrderId p.

Definition fails_required (p : Props) (s : State) : bool :=
  cfg_include_additional_questions p && missingRequired p s.

(** The four guards in source order; [Some msg] is the message handed to
    [setError] by the first guard that fires, [None] means all pass. *)
Definition validate (p : Props) (s : State) : option string :=
  if fails_consent s then Some msg_consent
  else if fails_nps p s then Some msg_nps
  else if fails_order p s then Some msg_order
  else if fails_required p s then Some msg_required
  else None.

(** The gate as the specification words it: a list of rules in a fixed
    order, of which the first failing one gives the reason. *)
Definition rules (p : Props) (s : State) : list (bool * string) :=
  [ (fails_consent s, msg_consent);
    (fails_nps p s, msg_nps);
    (fails_order p s, msg_order);
    (fails_required p s, msg_required) ].

Definition firstFailure (rs : list (bool * string)) : option string :=
  option_map snd (List.find fst rs).

(** *** Building the payload *)

(** What [FormData.append] accepts here: a blob, a string, or the text
    produced by [JSON.stringify] on the response object, kept as the object
    that text encodes. *)
Inductive FormValue : Type :=
| FBlob (b : Blob)
| FString (v : string)
| FJson (obj : gmap string JSValue).

(** A [FormData] is the list of appended entries, oldest first. *)
Definition FormData : Type := list (string * FormValue).

Definition append (name : string) (v : FormValue) (fd : FormData)
    : FormData :=
  (fd ++ [(name, v)])%list.

(** [FormData.has(name)]. *)
Definition has (name : string) (fd : FormData) : bool :=
  existsb (fun e => String.eqb (fst e) name) fd.

(** Lines 83 to 100 of [handleSubmit]: the sequence of conditional
    [append]s. The score is written with [toString] and the responses as
    [JSON.stringify] writes them. *)
Definition buildFormData (p : Props) (s : State) : FormData :=
  let formData : FormData := [] in
  let formData :=
    match feedbackType s, audioBlob s with
    | voice, Some b => append "audio" (FBlob b) formData
    | _, _ =>
        match feedbackType s with
        | text =>
            if truthy_string (textFeedback s)
            then append "textFeedback" (FString (textFeedback s)) formData
            else formData
        | voice => formData
        end
    end in
  let formData := append "orderId" (FString (localOrderId s)) formData in
  let formData := append "companyId" (FString (companyId p)) formData in
  let formData :=
    match campaignId p with
    | Some c =>
        if truthy_string c then append "campaignId" (FString c) formData
        else formData
    | None => formData
    end in
  let formData :=
    match npsScore s with
    | Some n =>
        if cfg_include_nps p && truthy_number (Some n)
        then append "npsScore" (FString (toString n)) formData
        else formData
    | None => formData
    end in
  let formData :=
    if (0 <? length (Object_keys (questionResponses s)))%nat
    then append "questionResponses"
           (FJson (stringified (questionResponses s))) formData
    else formData in
  formData.

(** *** Rendering *)

(** The recorder is rendered, and [audioRecorderRef.current] is set, exactly
    when the form is shown in voice mode with voice allowed. *)
Definition recorderRendered (p : Props) (s : State) : bool :=
  negb (submitted s)
  && match feedbackType s with voice => cfg_allowVoice p | text => false end.

(** The free-text area is the other branch of the same conditional. *)
Definition textareaRendered (p : Props) (s : State) : bool :=
  negb (submitted s)
  && negb (match feedbackType s with
           | voice => cfg_allowVoice p
           | text => false
           end)
  && cfg_allowText p.

(** The two mode buttons. *)
Definition tabsRendered (p : Props) (s : State) : bool :=
  negb (submitted s) && cfg_allowVoice p && cfg_allowText p.

Definition orderInputRendered (p : Props) (s : State) : bool :=
  negb (submitted s) && showOrderInput s && cfg_requireOrderId p.

Definition npsRendered (p : Props) (s : State) : bool :=
  negb (submitted s) && cfg_include_nps p.

(** The input components of [./questions/QuestionTypes]. *)
Inductive QuestionInput : Type :=
| TextQuestion
| RatingQuestion
| MultipleChoiceQuestion
| YesNoQuestion.

(** The chain of [question.type === '...' && <Component/>] tests: the inputs
    rendered under one question's label. *)
Definition dispatch (q : CampaignQuestion) : list QuestionInput :=
  ((if String.eqb (q_type q) "text" then [TextQuestion] else [])
   ++ (if String.eqb (q_type q) "rating" then [RatingQuestion] else [])
   ++ (if String.eqb (q_type q) "multiple_choice"
       then [MultipleChoiceQuestion] else [])
   ++ (if String.eqb (q_type q) "yes_no" then [YesNoQuestion] else []))%list.

(** One rendered question block: its key, its label, whether the asterisk is
    shown, and its inputs. *)
Record QuestionBlock : Type := {
  block_key : string;
  block_label : string;
  block_star : bool;
  block_inputs : list QuestionInput
}.

Definition renderQuestion (q : CampaignQuestion) : QuestionBlock := {|
  block_key := q_id q;
  block_label := q_text q;
  block_star := required q;
  block_inputs := dispatch q
|}.

(** The "Additional Questions" section. *)
Definition renderQuestions (p : Props) : list QuestionBlock :=
  if cfg_include_additional_questions p
     && (0 <? length (campaign_questions p))%nat
  then map renderQuestion (campaign_questions p)
  else [].

(** *** Submission *)

(** What a handler asks of the outside world. *)
Inductive Effect : Type :=
| StopRecording
| Fetch (url : string) (body : FormData).

(** How the awaited [fetch] settles: a response with [ok] set, a response
    without it, or a rejected promise. *)
Inductive FetchOutcome : Type :=
| ResponseOk
| ResponseNotOk
| TransportFailure.

(** [handleSubmit] up to its [await]: the guards, then the two state updates,
    the forced stop through the ref, and the request. *)
Definition handleSubmit (p : Props) (s : State) : State * list Effect :=
  match validate p s with
  | Some msg => (setError (Some msg) s, [])
  | None =>
      (setError None (setIsSubmitting true s),
       ((if recorderRendered p s then [StopRecording] else [])
        ++ [Fetch "/api/save-feedback" (buildFormData p s)])%list)
  end.

(** [handleSubmit] after its [await]: the rest of [try], then [catch] and
    [finally]. *)
Definition handleSubmit_settled (o : FetchOutcome) (s : State) : State :=
  match o with
  | ResponseOk => setIsSubmitting false (setSubmitted true s)
  | ResponseNotOk | TransportFailure =>
      setIsSubmitting false (setError (Some msg_failed) s)
  end.

(** The requests among a handler's effects. *)
Definition networkCalls (effs : list Effect) : list FormData :=
  omap (fun e => match e with Fetch _ body => Some body | _ => None end) effs.

(** The life-cycle stage the three cells [submitted], [isSubmitting] and
    [error] stand for. *)
Inductive SubmissionState : Type :=
| editing
| submitting
| submittedState
| failed.

Definition submissionState (s : State) : SubmissionState :=
  if submitted s then submittedState
  else if isSubmitting s then submitting
  else match error s with
       | Some m => if String.eqb m msg_failed then failed else editing
       | None => editing
       end.

(** *** The mounted form, its recorder and the network *)

(** Modelled from the spec: the capture states of the audio recorder
    ([./AudioRecorder] is imported by the form but its source is not part of
    the development). The voice sub-engine has the states idle, recording,
    recorded and playing. *)
Inductive RecorderStatus : Type :=
| idle
| recording
| recorded
| playing.

(** Modelled from the spec: what can happen to a mounted recorder, from the
    user's controls or from its own completion signal. *)
Inductive RecorderEvent : Type :=
| Start
| Complete (b : option Blob)
| Discard
| PlayPause.

(** Modelled from the spec: the recorder's transitions. [start] takes idle to
    recording; a stop or the recorder's own completion signal takes recording
    to recorded and yields one blob or nothing through the completion
    callback; discard takes recorded to idle and reports that the voice
    output is now absent; play and pause move between recorded and playing
    and report nothing. The result is the new status and the argument of the
    completion callback when it is called; [None] when the event cannot
    occur in that status. *)
Definition recorder_step (r : RecorderStatus) (e : RecorderEvent)
    : option (RecorderStatus * option (option Blob)) :=
  match r, e with
  | idle, Start => Some (recording, None)
  | recording, Complete b => Some (recorded, Some b)
  | recorded, Discard => Some (idle, Some None)
  | recorded, PlayPause => Some (playing, None)
  | playing, PlayPause => Some (recorded, None)
  | _, _ => None
  end.

(** The form as it lives on a page: the component state, the recorder it
    has mounted (if any), the [stopRecording] commands sent so far, the
    requests in flight and every request issued so far, oldest first. *)
Record World : Type := {
  form : State;
  recorder : option RecorderStatus;
  stops : nat;
  pending : nat;
  calls : list FormData
}.

Definition with_form (s : State) (w : World) : World := {|
  form := s; recorder := recorder w; stops := stops w;
  pending := pending w; calls := calls w |}.

(** Modelled from the spec: the stop forced on the voice sub-engine when
    its channel is left. A capture in progress does not survive the switch:
    it is discarded and the sub-engine is idle; a finalised recording is
    kept as it is. *)
Definition forcedStop (r : RecorderStatus) : RecorderStatus :=
  match r with
  | recording => idle
  | idle => idle
  | recorded => recorded
  | playing => playing
  end.

(** The forced stop, applied to the recorder of a page. *)
Definition stopRecorder (w : World) : World := {|
  form := form w; recorder := option_map forcedStop (recorder w);
  stops := stops w; pending := pending w; calls := calls w |}.

(** The recorder leaves the page. *)
Definition unmountRecorder (w : World) : World := {|
  form := form w; recorder := None;
  stops := stops w; pending := pending w; calls := calls w |}.

(** Modelled from the spec: the state in which the voice sub-engine comes
    onto the page. A finalised blob is retained until it is overwritten or
    discarded, and exactly one finalised value is live per prompt, so with a
    blob held the sub-engine is in recorded; without one it is idle. *)
Definition mountStatus (s : State) : RecorderStatus :=
  match audioBlob s with
  | Some _ => recorded
  | None => idle
  end.

(** Modelled from the spec: what the re-render after an event does to the
    recorder, whose mounting and unmounting code is in the missing
    [./AudioRecorder]. A recorder that stays on the page keeps its status
    and one that comes onto it starts in [mountStatus]; when the render no
    longer contains it (the condition is [recorderRendered], from the
    source), the sub-engine is first forced to stop and then unmounted. The
    component state is not touched. *)
Definition reconcile (p : Props) (w : World) : World := {|
  form := form w;
  recorder := if recorderRendered p (form w)
              then Some (match recorder w with
                         | Some r => r
                         | None => mountStatus (form w)
                         end)
              else recorder (unmountRecorder (stopRecorder w));
  stops := stops w; pending := pending w; calls := calls w |}.

(** Everything that can happen to a mounted form: the DOM events of the
    rendered controls, the recorder's events, and the settling of a
    request. [ChangeQuestion k v] is the [onChange] of the input in the
    [k]-th question block; the value an input hands over is left arbitrary,
    the inputs of [./questions/QuestionTypes] being outside the
    development. *)
Inductive Event : Type :=
| ChangeOrderId (v : string)
| ClickNps (i : nat)
| ChangeQuestion (k : nat) (v : JSValue)
| ClickVoiceTab
| ClickTextTab
| Recorder (e : RecorderEvent)
| ChangeTextFeedback (v : string)
| ChangeConsent (checked : bool)
| ClickSubmit
| FetchSettles (o : FetchOutcome).

Definition countStops (effs : list Effect) : nat :=
  length (List.filter
            (fun e => match e with StopRecording => true | _ => false end)
            effs).

(** The handler an event runs. An event on a control that is not rendered,
    or on the disabled submit button, runs nothing. *)
Definition dispatchEvent (p : Props) (w : World) (e : Event) : World :=
  let s := form w in
  match e with
  | ChangeOrderId v =>
      if orderInputRendered p s then with_form (setLocalOrderId v s) w else w
  | ClickNps i =>
      if npsRendered p s && (i <? 10)%nat
      then with_form (setNpsScore (Some (Z.of_nat i + 1)%Z) s) w
      else w
  | ChangeQuestion k v =>
      match renderQuestions p !! k with
      | Some b =>
          match submitted s, block_inputs b with
          | false, _ :: _ =>
              with_form (handleQuestionResponse (block_key b) v s) w
          | _, _ => w
          end
      | None => w
      end
  | ClickVoiceTab =>
      if tabsRendered p s then with_form (setFeedbackType voice s) w else w
  | ClickTextTab =>
      if tabsRendered p s then with_form (setFeedbackType text s) w else w
  | Recorder re =>
      match recorder w with
      | Some r =>
          match recorder_step r re with
          | Some (r', callback) =>
              {| form := match callback with
                         | Some b => setAudioBlob b s
                         | None => s
                         end;
                 recorder := Some r'; stops := stops w;
                 pending := pending w; calls := calls w |}
          | None => w
          end
      | None => w
      end
  | ChangeTextFeedback v =>
      if textareaRendered p s then with_form (setTextFeedback v s) w else w
  | ChangeConsent checked =>
      if submitted s then w else with_form (setConsent checked s) w
  | ClickSubmit =>
      if submitted s || isSubmitting s then w
      else
        let (s', effs) := handleSubmit p s in
        {| form := s'; recorder := recorder w;
           stops := stops w + countStops effs;
           pending := pending w + length (networkCalls effs);
           calls := (calls w ++ networkCalls effs)%list |}
  | FetchSettles o =>
      match pending w with
      | O => w
      | S n =>
          {| form := handleSubmit_settled o s; recorder := recorder w;
             stops := stops w; pending := n; calls := calls w |}
      end
  end.

(** One event followed by the re-render it causes. *)
Definition step (p : Props) (w : World) (e : Event) : World :=
  reconcile p (dispatchEvent p w e).

Definition run (p : Props) (w : World) (es : list Event) : World :=
  fold_left (step p) es w.

(** The form right after mount. *)
Definition mount (p : Props) : World :=
  reconcile p {| form := init p; recorder := None; stops := 0;
                 pending := 0; calls := [] |}.


(** *** Field updates, as the accumulator sees them *)

(** One call of a field's handler: a question response or one of the
    top-level cells. *)
Inductive Update : Type :=
| UpdateQuestion (questionId : string) (value : JSValue)
| UpdateOrderId (v : string)
| UpdateNpsScore (v : option Z)
| UpdateTextFeedback (v : string)
| UpdateVoiceBlob (v : option Blob)
| UpdateFeedbackMode (v : FeedbackType)
| UpdateConsent (v : bool).

Definition applyUpdate (s : State) (u : Update) : State :=
  match u with
  | UpdateQuestion questionId value => handleQuestionResponse questionId value s
  | UpdateOrderId v => setLocalOrderId v s
  | UpdateNpsScore v => setNpsScore v s
  | UpdateTextFeedback v => setTextFeedback v s
  | UpdateVoiceBlob v => setAudioBlob v s
  | UpdateFeedbackMode v => setFeedbackType v s
  | UpdateConsent v => setConsent v s
  end.

Definition applyUpdates (s : State) (us : list Update) : State :=
  fold_left applyUpdate us s.

(** The value most recently written for [questionId] in a sequence of
    updates, if any. *)
Fixpoint lastWritten (questionId : string) (us : list Update)
    : option JSValue :=
  match us with
  | [] => None
  | u :: rest =>
      match lastWritten questionId rest with
      | Some v => Some v
      | None =>
          match u with
          | UpdateQuestion k v =>
              if String.eqb k questionId then Some v else None
          | _ => None
          end
      end
  end.

(** The captured top-level fields of a session: order id, NPS score, text,
    voice blob, mode and consent. *)
Definition topLevel (s : State)
    : string * option Z * string * option Blob * FeedbackType * bool :=
  (localOrderId s, npsScore s, textFeedback s, audioBlob s, feedbackType s,
   consent s).

Definition isQuestionUpdate (u : Update) : bool :=
  match u with
  | UpdateQuestion _ _ => true
  | _ => false
  end.

(** *** Campaigns that differ in their question list *)

Definition with_questions (qs : list CampaignQuestion) (p : Props) : Props := {|
  orderId := orderId p;
  companyId := companyId p;
  campaignId := campaignId p;
  campaignData :=
    match campaignData p with
    | None => None
    | Some c =>
        Some {| c_id := c_id c; c_name := c_name c;
                company_id := company_id c; active := active c;
                start_date := start_date c; end_date := end_date c;
                include_nps := include_nps c;
                nps_question := nps_question c;
                include_additional_questions :=
                  include_additional_questions c;
                questions := qs; settings := settings c;
                created_at := created_at c |}
    end
|}.

(** The four types the form has an input for. *)
Definition recognised (type : string) : bool :=
  String.eqb type "text" || String.eqb type "rating"
  || String.eqb type "multiple_choice" || String.eqb type "yes_no".

(** *** The score buttons *)

(** [getScoreColor]: the classes of a score button when it is the chosen
    one and when it is not. *)
Definition getScoreColor (score : Z) : string * string :=
  if (score <=? 6)%Z
  then ("bg-red-500 hover:bg-red-600", "bg-red-300")
  else if (score <=? 8)%Z
  then ("bg-yellow-500 hover:bg-yellow-600", "bg-yellow-300")
  else ("bg-green-500 hover:bg-green-600", "bg-green-300").

(** The scores the ten buttons carry: [i + 1] for [i] from 0 to 9. *)
Definition scoreButtons : list Z :=
  map (fun i => (Z.of_nat i + 1)%Z) (seq 0 10).

(** *** Reading a payload *)

(** [FormData.get(name)]: the first value appended under [name]. *)
Definition getField (name : string) (fd : FormData) : option FormValue :=
  option_map snd (List.find (fun e => String.eqb (fst e) name) fd).

(** The field names of a payload, in the order they were appended. *)
Definition fieldNames (fd : FormData) : list string := map fst fd.

(** *** What one event can do to the component state *)

(** The state a handler can leave behind, with the condition under which
    the control that runs it is on the page. *)
Inductive FormStep (p : Props) (w : World) : State -> Prop :=
| fs_none : FormStep p w (form w)
| fs_orderId (v : string) :
    orderInputRendered p (form w) = true ->
    FormStep p w (setLocalOrderId v (form w))
| fs_nps (i : nat) :
    npsRendered p (form w) = true -> (i < 10)%nat ->
    FormStep p w (setNpsScore (Some (Z.of_nat i + 1)%Z) (form w))
| fs_question (b : QuestionBlock) (v : JSValue) :
    In b (renderQuestions p) -> block_inputs b <> [] ->
    submitted (form w) = false ->
    FormStep p w (handleQuestionResponse (block_key b) v (form w))
| fs_mode (m : FeedbackType) :
    tabsRendered p (form w) = true ->
    FormStep p w (setFeedbackType m (form w))
| fs_blob (r : RecorderStatus) (b : option Blob) :
    recorder w = Some r ->
    FormStep p w (setAudioBlob b (form w))
| fs_text (v : string) :
    textareaRendered p (form w) = true ->
    FormStep p w (setTextFeedback v (form w))
| fs_consent (checked : bool) :
    submitted (form w) = false ->
    FormStep p w (setConsent checked (form w))
| fs_rejected (m : string) :
    submitted (form w) = false -> isSubmitting (form w) = false ->
    validate p (form w) = Some m ->
    FormStep p w (setError (Some m) (form w))
| fs_accepted :
    submitted (form w) = false -> isSubmitting (form w) = false ->
    validate p (form w) = None ->
    FormStep p w (setError None (setIsSubmitting true (form w)))
| fs_settled (o : FetchOutcome) (n : nat) :
    pending w = S n ->
    FormStep p w (handleSubmit_settled o (form w)).

(** The worlds a mounted form can be in. *)
Inductive reachable (p : Props) : World -> Prop :=
| reach_mount : reachable p (mount p)
| reach_step (w : World) (e : Event) :
    reachable p w -> reachable p (step p w e).

End FeedbackForm.

(** ** src/components/questions/VoiceTextQuestion.tsx *)

Module VoiceTextQuestion.

(** [question: any]; the component reads these two properties, each in a
    boolean position. *)
Record Question : Type := {
  allowVoice : JSValue;
  allowText : JSValue
}.

Inductive ResponseType : Type := text | voice.

(** The [useState] cells and the audio player ref; the [Audio] element is
    identified by the blob it was created for. *)
Record State : Type := {
  responseType : ResponseType;
  audioBlob : option Blob;
  isRecording : bool;
  isPlaying : bool;
  audioPlayerRef : option Blob
}.

Definition init (question : Question) : State := {|
  responseType := if truthy (allowVoice question) then voice else text;
  audioBlob := None;
  isRecording := false;
  isPlaying := false;
  audioPlayerRef := None
|}.

(** The callbacks of the owner and the commands to the player. *)
Inductive Effect : Type :=
| onVoiceRecording (b : option Blob)
| onTextChange (v : string)
| play
| pause.

Definition setResponseType (v : ResponseType) (s : State) : State := {|
  responseType := v; audioBlob := audioBlob s; isRecording := isRecording s;
  isPlaying := isPlaying s; audioPlayerRef := audioPlayerRef s |}.

Definition handleRecordingComplete (blob : option Blob) (s : State)
    : State * list Effect :=
  ({| responseType := responseType s; audioBlob := blob;
      isRecording := isRecording s; isPlaying := isPlaying s;
      audioPlayerRef := audioPlayerRef s |},
   [onVoiceRecording blob]).

Definition togglePlayback (s : State) : State * list Effect :=
  match audioBlob s with
  | None => (s, [])
  | Some b =>
      let player :=
        match audioPlayerRef s with
        | None => Some b
        | Some a => Some a
        end in
      if isPlaying s
      then ({| responseType := responseType s; audioBlob := audioBlob s;
               isRecording := isRecording s; isPlaying := false;
               audioPlayerRef := player |}, [pause])
      else ({| responseType := responseType s; audioBlob := audioBlob s;
               isRecording := isRecording s; isPlaying := true;
               audioPlayerRef := player |}, [play])
  end.

Definition discardRecording (s : State) : State * list Effect :=
  ({| responseType := responseType s; audioBlob := None;
      isRecording := isRecording s; isPlaying := false;
      audioPlayerRef := None |},
   ((match audioPlayerRef s with Some _ => [pause] | None => [] end)
    ++ [onVoiceRecording None])%list).

(** The text area's [onChange]. *)
Definition changeText (v : string) (s : State) : State * list Effect :=
  (s, [onTextChange v]).

Definition showTabs (question : Question) : bool :=
  truthy (allowVoice question) && truthy (allowText question).

(** The recorder is rendered in the voice branch while no blob is held. *)
Definition recorderRendered (question : Question) (s : State) : bool :=
  match responseType s, audioBlob s with
  | voice, None => truthy (allowVoice question)
  | _, _ => false
  end.

(** The play and discard buttons take the recorder's place once a blob is
    held. *)
Definition playbackRendered (question : Question) (s : State) : bool :=
  match responseType s, audioBlob s with
  | voice, Some _ => truthy (allowVoice question)
  | _, _ => false
  end.

Definition textareaRendered (question : Question) (s : State) : bool :=
  match responseType s with
  | text => truthy (allowText question)
  | voice => false
  end.

(** The player's [onended] handler. *)
Definition onended (s : State) : State := {|
  responseType := responseType s; audioBlob := audioBlob s;
  isRecording := isRecording s; isPlaying := false;
  audioPlayerRef := audioPlayerRef s |}.

(** What can happen to a mounted question: clicks on the two tabs, typing,
    the recorder's completion callback, the play/pause and discard buttons,
    and the player reaching the end of the audio. *)
Inductive Event : Type :=
| ClickVoiceTab
| ClickTextTab
| ChangeText (v : string)
| RecordingComplete (blob : option Blob)
| ClickPlayback
| ClickDiscard
| AudioEnded.

(** The handler an event runs; an event on a control that is not rendered
    runs nothing, and the audio only ends while it is playing. *)
Definition dispatchEvent (question : Question) (s : State) (e : Event)
    : State * list Effect :=
  match e with
  | ClickVoiceTab =>
      if showTabs question then (setResponseType voice s, []) else (s, [])
  | ClickTextTab =>
      if showTabs question then (setResponseType text s, []) else (s, [])
  | ChangeText v =>
      if textareaRendered question s then changeText v s else (s, [])
  | RecordingComplete blob =>
      if recorderRendered question s then handleRecordingComplete blob s
      else (s, [])
  | ClickPlayback =>
      if playbackRendered question s then togglePlayback s else (s, [])
  | ClickDiscard =>
      if playbackRendered question s then discardRecording s else (s, [])
  | AudioEnded =>
      match audioPlayerRef s, isPlaying s with
      | Some _, true => (onended s, [])
      | _, _ => (s, [])
      end
  end.

(** A run of events, with every effect issued on the way, oldest first. *)
Definition run (question : Question) (es : list Event)
    (start : State * list Effect) : State * list Effect :=
  fold_left
    (fun acc e =>
       let (s', effs) := dispatchEvent question (fst acc) e in
       (s', (snd acc ++ effs)%list))
    es start.

(** What the owner holds after a trace of callbacks: the argument of the last
    [onVoiceRecording], or [start] when there was none. *)
Definition ownerBlob (start : option Blob) (effs : list Effect)
    : option Blob :=
  fold_left
    (fun held e => match e with onVoiceRecording b => b | _ => held end)
    effs start.

(** The text the owner holds: the argument of the last [onTextChange]. *)
Definition ownerText (start : string) (effs : list Effect) : string :=
  fold_left
    (fun held e => match e with onTextChange v => v | _ => held end)
    effs start.

(** How many of the three panels (text area, recorder, playback controls)
    are on the page. *)
Definition panels (question : Question) (s : State) : nat :=
  Nat.b2n (textareaRendered question s)
  + Nat.b2n (recorderRendered question s)
  + Nat.b2n (playbackRendered question s).

(** What holds of the component and of the callbacks it has issued, at
    mount and after every event: the player, if any, was created for the
    blob now held; playing needs a player; the owner was last told the blob
    now held; and the response type is one the question allows, unless it
    allows none. *)
Definition consistent (question : Question) (st : State * list Effect)
    : Prop :=
  (forall a, audioPlayerRef (fst st) = Some a ->
             audioBlob (fst st) = Some a)
  /\ (isPlaying (fst st) = true -> audioPlayerRef (fst st) <> None)
  /\ ownerBlob None (snd st) = audioBlob (fst st)
  /\ (responseType (fst st) = voice -> truthy (allowVoice question) = true)
  /\ (responseType (fst st) = text ->
      truthy (allowText question) = false ->
      truthy (allowVoice question) = false).

End VoiceTextQuestion.

(** ** src/app/dashboard/page.tsx *)

Module Dashboard.

(** A JavaScript number that is only passed along. *)
Abbreviation Number := QArith_base.Q.

(** The themes are read through [?.], so they may be missing. *)
Record DailySummary : Type := {
  date : string;
  nps_average : Number;
  positive_themes : option (list string);
  negative_themes : option (list string);
  summary : string
}.

Record Question : Type := {
  dq_id : string;
  dq_text : string;
  dq_type : string
}.

(** [questions] is read through [|| []], so it may be missing. *)
Record FeedbackCampaign : Type := {
  name : string;
  questions : option (list Question)
}.

Record QuestionResponse : Type := {
  question_id : string;
  response_value : string
}.

Record FeedbackEntry : Type := {
  f_id : string;
  created_at : string;
  order_id : string;
  nps_score : Z;
  transcription : option string;
  voice_file_url : option string;
  feedback_campaigns : FeedbackCampaign;
  question_responses : list QuestionResponse
}.

Record DashboardData : Type := {
  dailySummaries : list DailySummary;
  recentFeedback : list FeedbackEntry
}.

(** *** Component state and data loading *)

Record State : Type := {
  data : option DashboardData;
  loading : bool;
  error : option string;
  analysisRunning : bool
}.

Definition init : State := {|
  data := None; loading := true; error := None; analysisRunning := false |}.

Definition setData (v : option DashboardData) (s : State) : State := {|
  data := v; loading := loading s; error := error s;
  analysisRunning := analysisRunning s |}.

Definition setLoading (v : bool) (s : State) : State := {|
  data := data s; loading := v; error := error s;
  analysisRunning := analysisRunning s |}.

Definition setError (v : option string) (s : State) : State := {|
  data := data s; loading := loading s; error := v;
  analysisRunning := analysisRunning s |}.

Definition setAnalysisRunning (v : bool) (s : State) : State := {|
  data := data s; loading := loading s; error := error s;
  analysisRunning := v |}.

(** How a [GET /api/dashboard] ends: an ok response whose JSON body has
    the given [error] field (if any) next to the data; a response that is
    not ok; or an exception from [fetch] or [json()], with its message when
    it is an [Error]. *)
Inductive FetchResult : Type :=
| Json (err : option string) (result : DashboardData)
| NotOk
| Thrown (message : option string).

Definition msg_fetch : string := "Failed to fetch dashboard data".
Definition msg_load : string := "Failed to load dashboard data".
Definition msg_no_data : string := "Failed to load data".

(** [fetchDashboardData] from its first [await] on: [try], [catch],
    [finally]. *)
Definition fetchDashboardData (r : FetchResult) (s : State) : State :=
  let s' :=
    match r with
    | Json err result =>
        match err with
        | Some m =>
            if truthy_string m then setError (Some m) s
            else setData (Some result) s
        | None => setData (Some result) s
        end
    | NotOk => setError (Some msg_fetch) s
    | Thrown (Some m) => setError (Some m) s
    | Thrown None => setError (Some msg_load) s
    end in
  setLoading false s'.

(** The fetch at mount and the ones of the 30 second interval, in the
    order they settle. *)
Definition polls (rs : list FetchResult) (s : State) : State :=
  fold_left (fun acc r => fetchDashboardData r acc) rs s.

(** [x || dflt] for a string that may be missing. *)
Definition orElse (x : option string) (dflt : string) : string :=
  match x with
  | Some v => if truthy_string v then v else dflt
  | None => dflt
  end.

(** What the page shows: the loading line, the error line ([error ||
    !data]), or the dashboard. *)
Inductive View : Type :=
| LoadingView
| ErrorView (message : string)
| DashboardView (d : DashboardData).

Definition render (s : State) : View :=
  if loading s then LoadingView
  else
    match data s with
    | Some d =>
        if truthy_opt_string (error s)
        then ErrorView (orElse (error s) msg_no_data)
        else DashboardView d
    | None => ErrorView (orElse (error s) msg_no_data)
    end.

(** *** Running the analysis *)

Inductive PostOutcome : Type :=
| PostOk
| PostNotOk
| PostThrown.

Inductive Effect : Type :=
| PostRunAnalysis
| GetDashboard
| Alert (message : string).

Definition msg_analysis_done : string :=
  "Sentiment analysis complete! The dashboard has been updated with the latest feedback analysis.".
Definition msg_analysis_failed : string :=
  "Failed to run analysis. Check console for details.".

(** [runAnalysis], start to end: [post] is how the POST settles and
    [refresh] how the dashboard fetch it awaits settles, when it gets that
    far. *)
Definition runAnalysis (post : PostOutcome) (refresh : FetchResult)
    (s : State) : State * list Effect :=
  let s1 := setAnalysisRunning true s in
  match post with
  | PostOk =>
      (setAnalysisRunning false (fetchDashboardData refresh s1),
       [PostRunAnalysis; GetDashboard; Alert msg_analysis_done])
  | PostNotOk | PostThrown =>
      (setAnalysisRunning false s1,
       [PostRunAnalysis; Alert msg_analysis_failed])
  end.

(** *** The feedback table *)

(** [new Map(entries)]: entries are set in order, a later one replacing an
    earlier one with the same key. *)
Definition responseMap (rs : list QuestionResponse) : gmap string string :=
  fold_left (fun m r => <[question_id r := response_value r]> m) rs ∅.

Definition campaignQuestions (f : FeedbackEntry) : list Question :=
  default [] (questions (feedback_campaigns f)).

(** The classes of the score badge. *)
Definition badge (score : Z) : string :=
  if (9 <=? score)%Z then "bg-green-100 text-green-800"
  else if (7 <=? score)%Z then "bg-yellow-100 text-yellow-800"
  else "bg-red-100 text-red-800".

Inductive FeedbackCell : Type :=
| Transcript (shown : string)
| HasVoiceRecording
| NoFeedbackProvided.

(** The feedback column: the first 100 characters of the transcription,
    with an ellipsis when there are more. A character of the model is one
    code unit. *)
Definition feedbackCell (f : FeedbackEntry) : FeedbackCell :=
  if truthy_opt_string (transcription f)
  then
    let t := default "" (transcription f) in
    Transcript (substring 0 100 t
                ++ (if (100 <? String.length t)%nat then "..." else ""))
  else if truthy_opt_string (voice_file_url f) then HasVoiceRecording
  else NoFeedbackProvided.

(** One line of the responses column. *)
Definition responseLine (f : FeedbackEntry) (q : Question)
    : string * string :=
  (dq_text q,
   orElse (responseMap (question_responses f) !! dq_id q) "No response").

Definition responseLines (f : FeedbackEntry) : list (string * string) :=
  map (responseLine f) (campaignQuestions f).

(** *** The statistics and the chart *)

Definition totalResponses (d : DashboardData) : nat :=
  length (recentFeedback d).

Definition voiceRecordings (d : DashboardData) : nat :=
  length (List.filter (fun f => truthy_opt_string (voice_file_url f))
            (recentFeedback d)).

(** [toLocaleDateString] depends on the browser's locale and is a
    parameter [fmt] of everything that prints a date. *)
Definition chartData (fmt : string -> string) (d : DashboardData)
    : list (string * Number) :=
  rev (map (fun s => (fmt (date s), nps_average s)) (dailySummaries d)).

(** [dailySummaries[0]], the summary of the "Latest Daily Summary" card. *)
Definition latestSummary (d : DashboardData) : option DailySummary :=
  head (dailySummaries d).

(** *** The export *)

Inductive Cell : Type :=
| CStr (v : string)
| CInt (n : Z)
| CNum (n : Number).

(** A row object: its properties in insertion order (no column name here
    is an integer index, which would be listed first). *)
Definition Row : Type := list (string * Cell).

(** [row[key] = v]: an existing property keeps its place and takes the new
    value, a new one goes last. *)
Fixpoint setProp (key : string) (v : Cell) (row : Row) : Row :=
  match row with
  | [] => [(key, v)]
  | (k, x) :: rest =>
      if String.eqb k key then (k, v) :: rest
      else (k, x) :: setProp key v rest
  end.

Definition getProp (key : string) (row : Row) : option Cell :=
  option_map snd (List.find (fun e => String.eqb (fst e) key) row).

Definition keys (row : Row) : list string := map fst row.

Definition baseData (fmt : string -> string) (f : FeedbackEntry) : Row :=
  [ ("Date", CStr (fmt (created_at f)));
    ("Campaign", CStr (name (feedback_campaigns f)));
    ("Order ID", CStr (order_id f));
    ("NPS Score", CInt (nps_score f));
    ("Has Voice Recording",
     CStr (if truthy_opt_string (voice_file_url f) then "Yes" else "No"));
    ("Feedback", CStr (orElse (transcription f) "")) ].

(** The column a question is exported under. *)
Definition questionColumn (q : Question) : string := "Q: " ++ dq_text q.

Definition questionCell (f : FeedbackEntry) (q : Question) : Cell :=
  CStr (orElse (responseMap (question_responses f) !! dq_id q) "").

(** One exported feedback row: the base columns, then the [forEach] over the
    campaign's questions. *)
Definition feedbackRow (fmt : string -> string) (f : FeedbackEntry) : Row :=
  fold_left (fun row q => setProp (questionColumn q) (questionCell f q) row)
    (campaignQuestions f) (baseData fmt f).

(** [themes?.join(', ') || '']. *)
Definition joinThemes (themes : option (list string)) : string :=
  orElse (option_map (String.concat ", ") themes) "".

Definition summaryRow (fmt : string -> string) (s : DailySummary) : Row :=
  [ ("Date", CStr (fmt (date s)));
    ("NPS Score", CNum (nps_average s));
    ("Positive Themes", CStr (joinThemes (positive_themes s)));
    ("Negative Themes", CStr (joinThemes (negative_themes s)));
    ("Summary", CStr (summary s)) ].

Record Workbook : Type := {
  fileName : string;
  sheets : list (string * list Row)
}.

(** [exportToExcel]: nothing without data; otherwise a workbook with the two
    sheets, named after [today], the date part of the current ISO time. *)
Definition exportToExcel (fmt : string -> string) (today : string)
    (s : State) : option Workbook :=
  match data s with
  | None => None
  | Some d =>
      Some {| fileName := "feedback-export-" ++ today ++ ".xlsx";
              sheets :=
                [ ("Feedback", map (feedbackRow fmt) (recentFeedback d));
                  ("Daily Summaries",
                   map (summaryRow fmt) (dailySummaries d)) ] |}
  end.

(** The last response recorded for a question id, if any. *)
Fixpoint lastResponse (k : string) (rs : list QuestionResponse)
    : option string :=
  match rs with
  | [] => None
  | r :: rest =>
      match lastResponse k rest with
      | Some v => Some v
      | None => if String.eqb (question_id r) k then Some (response_value r)
                else None
      end
  end.

(** The last question of a list that is exported under a given column. *)
Fixpoint lastWithColumn (col : string) (qs : list Question)
    : option Question :=
  match qs with
  | [] => None
  | q :: rest =>
      match lastWithColumn col rest with
      | Some q' => Some q'
      | None => if String.eqb (questionColumn q) col then Some q else None
      end
  end.

(** The question columns of a row on their own: the same [forEach], started
    from an empty object. *)
Definition questionColumns (f : FeedbackEntry) : Row :=
  fold_left (fun row q => setProp (questionColumn q) (questionCell f q) row)
    (campaignQuestions f) [].

(** Whether an exported row says the entry has a voice recording. *)
Definition saysVoice (row : Row) : bool :=
  match getProp "Has Voice Recording" row with
  | Some (CStr v) => String.eqb v "Yes"
  | _ => false
  end.

(** The message a fetch result stores in [error], if it is a failure. *)
Definition failureMessage (r : FetchResult) : option string :=
  match r with
  | Json (Some m) _ => if truthy_string m then Some m else None
  | Json None _ => None
  | NotOk => Some msg_fetch
  | Thrown (Some m) => Some m
  | Thrown None => Some msg_load
  end.

(** The data a fetch result stores, if it is a success. *)
Definition fetchedData (r : FetchResult) : option DashboardData :=
  match r with
  | Json err result =>
      if truthy_opt_string err then None else Some result
  | _ => None
  end.

(** The data of the last success in a run of results. *)
Fixpoint lastFetched (rs : list FetchResult) : option DashboardData :=
  match rs with
  | [] => None
  | r :: rest =>
      match lastFetched rest with
      | Some d => Some d
      | None => fetchedData r
      end
  end.

End Dashboard.

(** ** Sample campaigns and sessions *)

Module Examples.

Import FeedbackForm.

Definition question (id type : string) (req : bool) : CampaignQuestion := {|
  q_id := id; q_type := type; q_text := "How was it?"; required := req;
  options := if String.eqb type "multiple_choice" then Some ["A"; "B"]
             else None;
  scale := None
|}.

Definition campaign (nps extra : bool) (qs : list CampaignQuestion)
    (voiceOk textOk : bool) (needOrder : option bool) : Campaign := {|
  c_id := "c1"; c_name := "Spring"; company_id := "acme"; active := true;
  start_date := None; end_date := None;
  include_nps := nps;
  nps_question := Some "How likely are you to recommend us?";
  include_additional_questions := extra; questions := qs;
  settings := {| allowVoice := voiceOk; allowText := textOk;
                 requireOrderId := needOrder |};
  created_at := "2024-01-01"
|}.

Definition props (order : string) (c : Campaign) : Props := {|
  orderId := order; companyId := "acme"; campaignId := Some "c1";
  campaignData := Some c
|}.

(** NPS on, one required multiple-choice question, both channels allowed,
    order id required. *)
Definition survey : Campaign :=
  campaign true true [question "q1" "multiple_choice" true] true true
    (Some true).

(** The link carried the order id. *)
Definition survey_props : Props := props "ORD-1" survey.

(** The link carried no order id, so the field is shown. *)
Definition walk_in_props : Props := props "" survey.

(** A complete text answer to [survey]. *)
Definition complete : State :=
  setConsent true
    (setTextFeedback "Great!"
       (setFeedbackType FeedbackForm.text
          (handleQuestionResponse "q1" (JStr "B")
             (setNpsScore (Some 9%Z) (init survey_props))))).

(** The same answer with the consent box left unchecked and the question
    left open. *)
Definition nothing_ticked : State :=
  setTextFeedback "Great!" (setNpsScore (Some 9%Z) (init survey_props)).

(** A campaign with nothing to ask beyond the free feedback. *)
Definition bare : Campaign := campaign false false [] true true None.

Definition bare_props : Props := props "ORD-1" bare.

(** Consent given, voice mode, nothing recorded. *)
Definition silent : State := setConsent true (init bare_props).

(** A campaign whose only question is required and of a type the form has
    no input for. *)
Definition odd : Campaign :=
  campaign false true [question "q1" "nps" true] true true None.

Definition odd_props : Props := props "ORD-1" odd.

Definition clip : Blob := [Byte.x52; Byte.x49; Byte.x46; Byte.x46].

(** Record and finalise a clip, look at the text tab, come back to voice
    and press start again. *)
Definition second_take : list Event :=
  [ Recorder Start; Recorder (Complete (Some clip));
    ClickTextTab; ClickVoiceTab; Recorder Start ].


End Examples.

(** * Properties *)

Import FeedbackForm.

(** ** The validation gate *)

Section ValidationGate.

Variable p : Props.
Variable s : State.

Lemma validate_first_failure : validate p s = firstFailure (rules p s).
Proof.
  unfold validate, firstFailure, rules. simpl.
  destruct (fails_consent s); [reflexivity |].
  destruct (fails_nps p s); [reflexivity |].
  destruct (fails_order p s); [reflexivity |].
  destruct (fails_required p s); reflexivity.
Qed.

Lemma handleSubmit_rejects (m : string) :
  validate p s = Some m -> handleSubmit p s = (setError (Some m) s, []).
Proof. intros H. unfold handleSubmit. rewrite H. reflexivity. Qed.

Lemma handleSubmit_accepts :
  validate p s = None ->
  handleSubmit p s =
    (setError None (setIsSubmitting true s),
     ((if recorderRendered p s then [StopRecording] else [])
      ++ [Fetch "/api/save-feedback" (buildFormData p s)])%list).
Proof. intros H. unfold handleSubmit. rewrite H. reflexivity. Qed.

Lemma handleSubmit_error : error (fst (handleSubmit p s)) = validate p s.
Proof. unfold handleSubmit. destruct (validate p s); reflexivity. Qed.

Lemma validate_passes :
  validate p s = None <->
  fails_consent s = false /\ fails_nps p s = false
  /\ fails_order p s = false /\ fails_required p s = false.
Proof.
  unfold validate.
  destruct (fails_consent s), (fails_nps p s), (fails_order p s),
    (fails_required p s); split; intros H; try discriminate H;
    try (destruct H as (? & ? & ? & ?); discriminate); auto.
Qed.

End ValidationGate.

(** The two worked sessions: a complete answer passes, and the same campaign
    without consent is turned away with the consent message and no
    request. *)
Example complete_session_passes :
  validate Examples.survey_props Examples.complete = None.
Proof. reflexivity. Qed.

Example unticked_session_rejected :
  handleSubmit Examples.survey_props
    (setConsent false Examples.complete)
  = (setError (Some msg_consent) (setConsent false Examples.complete), []).
Proof. reflexivity. Qed.

(** C1. The gate checks consent, then the NPS score, then the order id, then
    the required questions, and stops at the first rule that fails: the
    reason it gives is the one of the first failing rule in that order, the
    single message [handleSubmit] stores is that reason, and a session that
    fails both the consent rule and the required-questions rule is told
    about consent. *)
Theorem validation_order (p : Props) (s : State) :
  validate p s = firstFailure (rules p s)
  /\ error (fst (handleSubmit p s)) = validate p s
  /\ (fails_consent s = true -> fails_required p s = true ->
      validate p s = Some msg_consent
      /\ handleSubmit p s = (setError (Some msg_consent) s, [])).
Proof.
  split; [apply validate_first_failure |].
  split; [apply handleSubmit_error |].
  intros Hc _.
  assert (Hv : validate p s = Some msg_consent)
    by (unfold validate; rewrite Hc; reflexivity).
  split; [exact Hv | exact (handleSubmit_rejects p s _ Hv)].
Qed.

Lemma validation_order_witness :
  validate Examples.survey_props Examples.nothing_ticked = Some msg_consent
  /\ handleSubmit Examples.survey_props Examples.nothing_ticked
     = (setError (Some msg_consent) Examples.nothing_ticked, []).
Proof.
  apply (validation_order Examples.survey_props Examples.nothing_ticked);
    reflexivity.
Defined.

(** ** Submitting without an NPS score *)

Lemma messages_distinct :
  msg_consent <> msg_nps /\ msg_consent <> msg_order
  /\ msg_nps <> msg_order /\ msg_required <> msg_order
  /\ msg_consent <> msg_failed /\ msg_nps <> msg_failed
  /\ msg_order <> msg_failed /\ msg_required <> msg_failed.
Proof. repeat split; discriminate. Qed.

Lemma rejected_is_editing (p : Props) (s : State) (m : string) :
  validate p s = Some m -> submitted s = false -> isSubmitting s = false ->
  submissionState (setError (Some m) s) = editing.
Proof.
  intros Hv Hs Hi. unfold submissionState. simpl. rewrite Hs, Hi.
  unfold validate in Hv.
  destruct (fails_consent s); [injection Hv as <-; reflexivity |].
  destruct (fails_nps p s); [injection Hv as <-; reflexivity |].
  destruct (fails_order p s); [injection Hv as <-; reflexivity |].
  destruct (fails_required p s); [injection Hv as <-; reflexivity |].
  discriminate.
Qed.

(** C2, as stated, does not hold: with NPS switched on and no score chosen,
    a session whose consent box is unchecked is told about consent, not about
    the score. *)
Lemma nps_reason_preempted_by_consent :
  ~ (forall (p : Props) (s : State),
       cfg_include_nps p = true -> npsScore s = None ->
       error (fst (handleSubmit p s)) = Some msg_nps).
Proof.
  intros H.
  specialize (H Examples.survey_props (init Examples.survey_props)
                eq_refl eq_refl).
  vm_compute in H. discriminate H.
Qed.

(** C2, amended. When the campaign includes NPS and no score has been
    chosen, submit issues no effect at all, so no network call, and leaves
    [isSubmitting] and [submitted] as they were, so a session that was being
    edited stays in editing; the reason stored is "NPS score required" when
    consent has been given, and the consent reason otherwise. *)
Theorem submit_without_nps (p : Props) (s : State) :
  cfg_include_nps p = true -> npsScore s = None ->
  snd (handleSubmit p s) = []
  /\ networkCalls (snd (handleSubmit p s)) = []
  /\ isSubmitting (fst (handleSubmit p s)) = isSubmitting s
  /\ submitted (fst (handleSubmit p s)) = submitted s
  /\ (submitted s = false -> isSubmitting s = false ->
      submissionState (fst (handleSubmit p s)) = editing)
  /\ (consent s = true -> error (fst (handleSubmit p s)) = Some msg_nps)
  /\ (consent s = false ->
      error (fst (handleSubmit p s)) = Some msg_consent).
Proof.
  intros Hn Hs.
  assert (Hv : exists m, validate p s = Some m
                         /\ (consent s = true -> m = msg_nps)
                         /\ (consent s = false -> m = msg_consent)).
  { unfold validate, fails_consent, fails_nps. rewrite Hn, Hs. simpl.
    destruct (consent s); simpl; eexists; (split; [reflexivity |]);
      split; intros; congruence. }
  destruct Hv as (m & Hv & Hyes & Hno).
  rewrite (handleSubmit_rejects p s m Hv). simpl.
  repeat split; try reflexivity.
  - intros. eapply rejected_is_editing; eassumption.
  - intros Hc. rewrite (Hyes Hc). reflexivity.
  - intros Hc. rewrite (Hno Hc). reflexivity.
Qed.

Lemma submit_without_nps_witness :
  networkCalls
    (snd (handleSubmit Examples.survey_props
            (setConsent true (init Examples.survey_props)))) = []
  /\ error
       (fst (handleSubmit Examples.survey_props
               (setConsent true (init Examples.survey_props))))
     = Some msg_nps.
Proof.
  pose proof (submit_without_nps Examples.survey_props
                (setConsent true (init Examples.survey_props))
                eq_refl eq_refl) as (_ & Hnet & _ & _ & _ & Hyes & _).
  split; [exact Hnet | exact (Hyes eq_refl)].
Defined.

(** ** The order id rule *)

(** No handler writes [showOrderInput]: the field stays shown, or hidden, as
    decided at mount. *)
Lemma showOrderInput_step (p : Props) (w : World) (e : Event) :
  showOrderInput (form (step p w e)) = showOrderInput (form w).
Proof.
  change (form (step p w e)) with (form (dispatchEvent p w e)).
  destruct e as [v | i | k v | | | re | v | c | | o]; unfold dispatchEvent.
  - destruct (orderInputRendered _ _); reflexivity.
  - destruct (npsRendered _ _ && _); reflexivity.
  - destruct (renderQuestions p !! k) as [b |]; [| reflexivity].
    destruct (submitted (form w)), (block_inputs b); reflexivity.
  - destruct (tabsRendered _ _); reflexivity.
  - destruct (tabsRendered _ _); reflexivity.
  - destruct (recorder w) as [r |]; [| reflexivity].
    destruct (recorder_step r re) as [[r' [b |]] |]; reflexivity.
  - destruct (textareaRendered _ _); reflexivity.
  - destruct (submitted (form w)); reflexivity.
  - destruct (submitted (form w) || isSubmitting (form w)); [reflexivity |].
    unfold handleSubmit. destruct (validate _ _); reflexivity.
  - destruct (pending w); [reflexivity |]. destruct o; reflexivity.
Qed.

Lemma showOrderInput_fixed (p : Props) (es : list Event) :
  forall w, showOrderInput (form (run p w es)) = showOrderInput (form w).
Proof.
  induction es as [| e rest IH]; intros w; [reflexivity |].
  change (run p w (e :: rest)) with (run p (step p w e) rest).
  rewrite IH. apply showOrderInput_step.
Qed.

(** C8, as stated, does not hold: with the order id required, the field
    shown and left empty, a session whose consent box is unchecked is told
    about consent, not about the order id. *)
Lemma order_reason_preempted_by_consent :
  ~ (forall (p : Props) (s : State),
       cfg_requireOrderId p = true -> showOrderInput s = true ->
       localOrderId s = "" ->
       validate p s = Some msg_order).
Proof.
  intros H.
  specialize (H Examples.walk_in_props (init Examples.walk_in_props)
                eq_refl eq_refl eq_refl).
  vm_compute in H. discriminate H.
Qed.

Lemma validate_ignores_order_id (p : Props) (s : State) (v : string) :
  showOrderInput s && cfg_requireOrderId p = false ->
  validate p (setLocalOrderId v s) = validate p s.
Proof.
  intros H. unfold validate, fails_order. simpl.
  rewrite <- !andb_assoc, H, !andb_false_r. reflexivity.
Qed.

(** C8, amended. When [requireOrderId] is set and the order id field is
    shown (no order id came with the mount), an empty order id always fails
    validation, and the reason is "order ID required" whenever the consent
    and NPS rules pass; the field is shown exactly when the mount carried no
    order id. When [requireOrderId] is not set or the field is not shown,
    the order id plays no part in validation, so an empty one does not block
    it and the order-id reason is never given. *)
Theorem order_id_rule (p : Props) (s : State) :
  (cfg_requireOrderId p = true -> showOrderInput s = true ->
   localOrderId s = "" ->
   validate p s <> None
   /\ (fails_consent s = false -> fails_nps p s = false ->
       validate p s = Some msg_order))
  /\ (showOrderInput s && cfg_requireOrderId p = false ->
      validate p s <> Some msg_order
      /\ forall v, validate p (setLocalOrderId v s) = validate p s)
  /\ (forall es,
        showOrderInput (form (run p (mount p) es))
        = negb (truthy_string (orderId p))).
Proof.
  split; [| split; [| intros es; apply showOrderInput_fixed]].
  - intros Hr Hshow Hid.
    assert (Hf : fails_order p s = true)
      by (unfold fails_order; rewrite Hr, Hshow, Hid; reflexivity).
    unfold validate. rewrite Hf. split.
    + destruct (fails_consent s); [discriminate |].
      destruct (fails_nps p s); discriminate.
    + intros -> ->. reflexivity.
  - intros H. split.
    + assert (Hf : fails_order p s = false).
      { unfold fails_order. rewrite <- andb_assoc, H. apply andb_false_r. }
      unfold validate. rewrite Hf.
      destruct (fails_consent s); [discriminate |].
      destruct (fails_nps p s); [discriminate |].
      destruct (fails_required p s); discriminate.
    + intros v. apply validate_ignores_order_id. exact H.
Qed.

Lemma order_id_rule_witness :
  validate Examples.walk_in_props
    (setNpsScore (Some 9%Z) (setConsent true (init Examples.walk_in_props)))
  = Some msg_order
  /\ validate Examples.bare_props
       (setLocalOrderId "" Examples.silent) = None.
Proof.
  split.
  - pose proof (order_id_rule Examples.walk_in_props
                  (setNpsScore (Some 9%Z)
                     (setConsent true (init Examples.walk_in_props))))
      as (H & _).
    destruct (H eq_refl eq_refl eq_refl) as (_ & Hv).
    exact (Hv eq_refl eq_refl).
  - pose proof (order_id_rule Examples.bare_props Examples.silent)
      as (_ & H & _).
    destruct (H eq_refl) as (_ & Hv). rewrite Hv. reflexivity.
Defined.

(** ** The payload *)

Lemma has_append (name field : string) (v : FormValue) (fd : FormData) :
  has name (append field v fd) = has name fd || String.eqb field name.
Proof.
  unfold has, append. rewrite existsb_app. simpl.
  rewrite orb_false_r. reflexivity.
Qed.

Lemma keys_nonempty (obj : gmap string JSValue) :
  (0 <? length (Object_keys obj))%nat = true <-> obj <> ∅.
Proof.
  unfold Object_keys. rewrite length_fmap.
  destruct (map_to_list obj) as [| e l] eqn:E; simpl.
  - apply map_to_list_empty_iff in E. split; [discriminate | congruence].
  - split; [| reflexivity]. intros _ ->.
    rewrite map_to_list_empty in E. discriminate E.
Qed.

Lemma networkCalls_accepted (p : Props) (s : State) :
  validate p s = None ->
  networkCalls (snd (handleSubmit p s)) = [buildFormData p s].
Proof.
  intros H. rewrite (handleSubmit_accepts p s H). simpl.
  destruct (recorderRendered p s); reflexivity.
Qed.

Lemma truthy_string_nonempty (v : string) :
  truthy_string v = true <-> v <> "".
Proof. destruct v; simpl; split; congruence. Qed.

Section Payload.

Variable p : Props.
Variable s : State.

Ltac payload_cases :=
  unfold buildFormData;
  destruct (feedbackType s), (audioBlob s) as [b |],
    (truthy_string (textFeedback s)) eqn:Et,
    (campaignId p) as [c |];
  cbv beta iota zeta; try destruct (truthy_string c);
  destruct (npsScore s) as [n |]; cbv beta iota zeta;
  try destruct (cfg_include_nps p && truthy_number (Some n));
  destruct (0 <? length (Object_keys (questionResponses s)))%nat eqn:Ek;
  rewrite ?has_append; simpl.

Lemma has_audio :
  has "audio" (buildFormData p s) = true
  <-> feedbackType s = voice /\ audioBlob s <> None.
Proof.
  payload_cases; split; try discriminate; try tauto;
    try (intros [? ?]; congruence); intros _; split; congruence.
Qed.

Lemma has_textFeedback :
  has "textFeedback" (buildFormData p s) = true
  <-> feedbackType s = text /\ textFeedback s <> "".
Proof.
  rewrite <- truthy_string_nonempty.
  payload_cases; split; try discriminate; try tauto;
    try (intros [? ?]; congruence); intros _; split; congruence.
Qed.

Lemma has_questionResponses :
  has "questionResponses" (buildFormData p s) = true
  <-> questionResponses s <> ∅.
Proof.
  rewrite <- keys_nonempty.
  payload_cases; split; congruence.
Qed.

End Payload.

(** C3, as stated, does not hold: a session that passes validation in voice
    mode without a recording sends neither an audio field nor a textFeedback
    field, so the payload does not always carry exactly one of the two. *)
Lemma payload_may_carry_neither_channel :
  ~ (forall (p : Props) (s : State),
       validate p s = None ->
       xorb (has "audio" (buildFormData p s))
            (has "textFeedback" (buildFormData p s)) = true).
Proof.
  intros H.
  specialize (H Examples.bare_props Examples.silent eq_refl).
  vm_compute in H. discriminate H.
Qed.

(** C3, amended. For every session passing validation, submit issues one
    request whose payload carries the audio field exactly when the mode is
    voice and a blob is held, and the textFeedback field exactly when the
    mode is text and the text is non-empty; hence at most one of the two and
    never both (neither when the active channel holds nothing). The
    questionResponses field is included exactly when the response mapping is
    non-empty. *)
Theorem payload_channels (p : Props) (s : State) :
  validate p s = None ->
  networkCalls (snd (handleSubmit p s)) = [buildFormData p s]
  /\ (has "audio" (buildFormData p s) = true
      <-> feedbackType s = voice /\ audioBlob s <> None)
  /\ (has "textFeedback" (buildFormData p s) = true
      <-> feedbackType s = text /\ textFeedback s <> "")
  /\ ~ (has "audio" (buildFormData p s) = true
        /\ has "textFeedback" (buildFormData p s) = true)
  /\ (has "questionResponses" (buildFormData p s) = true
      <-> questionResponses s <> ∅).
Proof.
  intros Hv.
  split; [exact (networkCalls_accepted p s Hv) |].
  split; [apply has_audio |].
  split; [apply has_textFeedback |].
  split; [| apply has_questionResponses].
  rewrite has_audio, has_textFeedback. intros [[Ha _] [Ht _]]. congruence.
Qed.

Lemma payload_channels_witness :
  networkCalls (snd (handleSubmit Examples.survey_props Examples.complete))
  = [ [ ("textFeedback", FString "Great!");
        ("orderId", FString "ORD-1");
        ("companyId", FString "acme");
        ("campaignId", FString "c1");
        ("npsScore", FString "9");
        ("questionResponses", FJson {[ "q1" := JStr "B" ]}) ] ].
Proof.
  destruct (payload_channels Examples.survey_props Examples.complete eq_refl)
    as (H & _).
  rewrite H. reflexivity.
Defined.

(** ** The response accumulator *)

Section Accumulator.

Lemma applyUpdate_responses (s : State) (u : Update) :
  questionResponses (applyUpdate s u)
  = match u with
    | UpdateQuestion k v => <[k := v]> (questionResponses s)
    | _ => questionResponses s
    end.
Proof. destruct u; reflexivity. Qed.

Lemma applyUpdate_topLevel (s : State) (u : Update) :
  isQuestionUpdate u = true -> topLevel (applyUpdate s u) = topLevel s.
Proof. destruct u; simpl; intros H; try discriminate H. reflexivity. Qed.

Lemma applyUpdate_topLevel_congr (s1 s2 : State) (u : Update) :
  topLevel s1 = topLevel s2 ->
  topLevel (applyUpdate s1 u) = topLevel (applyUpdate s2 u).
Proof.
  unfold topLevel. intros H. injection H as H1 H2 H3 H4 H5 H6.
  destruct u; simpl; congruence.
Qed.

Lemma applyUpdates_lookup (us : list Update) :
  forall (s : State) (k : string),
    questionResponses (applyUpdates s us) !! k
    = match lastWritten k us with
      | Some v => Some v
      | None => questionResponses s !! k
      end.
Proof.
  induction us as [| u rest IH]; intros s k; [reflexivity |].
  change (applyUpdates s (u :: rest))
    with (applyUpdates (applyUpdate s u) rest).
  rewrite IH. simpl.
  destruct (lastWritten k rest) as [v |]; [reflexivity |].
  rewrite applyUpdate_responses.
  destruct u as [k' v' | | | | | |]; try reflexivity.
  rewrite lookup_insert.
  destruct (String.eqb_spec k' k) as [-> | Hne].
  - rewrite decide_True by reflexivity. reflexivity.
  - rewrite decide_False by exact Hne. reflexivity.
Qed.

Lemma applyUpdates_topLevel (us : list Update) :
  forall s1 s2 : State,
    topLevel s1 = topLevel s2 ->
    topLevel (applyUpdates s1 us)
    = topLevel
        (applyUpdates s2
           (List.filter (fun u => negb (isQuestionUpdate u)) us)).
Proof.
  induction us as [| u rest IH]; intros s1 s2 H; [exact H |].
  change (applyUpdates s1 (u :: rest))
    with (applyUpdates (applyUpdate s1 u) rest).
  simpl List.filter.
  destruct (isQuestionUpdate u) eqn:Eu; simpl negb; cbv iota.
  - apply IH. rewrite applyUpdate_topLevel by exact Eu. exact H.
  - change (applyUpdates s2 (u :: ?l))
      with (applyUpdates (applyUpdate s2 u) l).
    apply IH. apply applyUpdate_topLevel_congr. exact H.
Qed.

End Accumulator.

(** C7. Updating a question response writes that question's key and leaves
    every other key and every top-level field as it was, and a top-level
    update leaves the responses as they were. So after any sequence of
    question and top-level updates, however interleaved, each question id
    holds the last value written for it (or what it held before, if none was
    written), and the top-level fields are what the top-level updates alone
    would have produced. *)
Theorem accumulator_last_write (s : State) (us : list Update) :
  (forall k v k',
      questionResponses (handleQuestionResponse k v s) !! k'
      = if decide (k = k') then Some v else questionResponses s !! k')
  /\ (forall k v, topLevel (handleQuestionResponse k v s) = topLevel s)
  /\ (forall u,
        questionResponses (applyUpdate s u)
        = match u with
          | UpdateQuestion k v => <[k := v]> (questionResponses s)
          | _ => questionResponses s
          end)
  /\ (forall k,
        questionResponses (applyUpdates s us) !! k
        = match lastWritten k us with
          | Some v => Some v
          | None => questionResponses s !! k
          end)
  /\ topLevel (applyUpdates s us)
     = topLevel
         (applyUpdates s
            (List.filter (fun u => negb (isQuestionUpdate u)) us)).
Proof.
  split; [intros k v k'; simpl; apply lookup_insert |].
  split; [reflexivity |].
  split; [apply applyUpdate_responses |].
  split; [intros k; apply applyUpdates_lookup |].
  apply applyUpdates_topLevel. reflexivity.
Qed.

(** ** A submission that fails *)

Lemma settled_failure (o : FetchOutcome) (s : State) :
  o <> ResponseOk ->
  handleSubmit_settled o s
  = setIsSubmitting false (setError (Some msg_failed) s).
Proof. destruct o; [congruence | reflexivity | reflexivity]. Qed.

(** C6. When the request settles with a response that is not ok, or is
    rejected in transport, the session ends up failed: the generic message
    asking to try again is stored, [isSubmitting] is cleared, and the order
    id, NPS score, text, voice blob, mode, consent and question responses are
    exactly what they were, so validation and the payload of a retry are the
    same as before. On the page, the settling consumes the request in flight
    and issues no new one. *)
Theorem failed_submission_keeps_session (o : FetchOutcome) (s : State) :
  o <> ResponseOk -> submitted s = false ->
  submissionState (handleSubmit_settled o s) = failed
  /\ error (handleSubmit_settled o s) = Some msg_failed
  /\ isSubmitting (handleSubmit_settled o s) = false
  /\ topLevel (handleSubmit_settled o s) = topLevel s
  /\ questionResponses (handleSubmit_settled o s) = questionResponses s
  /\ (forall p,
        validate p (handleSubmit_settled o s) = validate p s
        /\ buildFormData p (handleSubmit_settled o s) = buildFormData p s)
  /\ (forall p w n,
        form w = s -> pending w = S n ->
        form (step p w (FetchSettles o)) = handleSubmit_settled o s
        /\ pending (step p w (FetchSettles o)) = n
        /\ calls (step p w (FetchSettles o)) = calls w).
Proof.
  intros Ho Hs. rewrite (settled_failure o s Ho).
  split; [unfold submissionState; simpl; rewrite Hs; reflexivity |].
  do 4 (split; [reflexivity |]).
  split; [intros p; split; reflexivity |].
  intros p w n Hw Hp. unfold step, dispatchEvent. rewrite Hp, Hw.
  split; [apply settled_failure; exact Ho |].
  split; reflexivity.
Qed.

Lemma failed_submission_keeps_session_witness :
  submissionState (handleSubmit_settled ResponseNotOk
                     (fst (handleSubmit Examples.survey_props
                             Examples.complete))) = failed
  /\ topLevel (handleSubmit_settled TransportFailure
                 (fst (handleSubmit Examples.survey_props
                         Examples.complete)))
     = topLevel Examples.complete.
Proof.
  split.
  - apply (failed_submission_keeps_session ResponseNotOk
             (fst (handleSubmit Examples.survey_props Examples.complete)));
      [discriminate | reflexivity].
  - destruct (failed_submission_keeps_session TransportFailure
                (fst (handleSubmit Examples.survey_props Examples.complete)))
      as (_ & _ & _ & H & _); [discriminate | reflexivity |].
    rewrite H. reflexivity.
Defined.

(** ** The initial mode *)

(** C10. At mount the form starts in voice mode exactly when there is a
    campaign whose settings allow voice, and in text mode otherwise; the
    voice/text question component starts in voice mode exactly when the
    question's [allowVoice] is truthy, and in text mode otherwise. *)
Theorem initial_mode (p : Props) (question : VoiceTextQuestion.Question) :
  (feedbackType (init p) = voice
   <-> exists c, campaignData p = Some c /\ allowVoice (settings c) = true)
  /\ (feedbackType (init p) = text
      <-> ~ exists c, campaignData p = Some c
                      /\ allowVoice (settings c) = true)
  /\ feedbackType (form (mount p)) = feedbackType (init p)
  /\ (VoiceTextQuestion.responseType (VoiceTextQuestion.init question)
      = VoiceTextQuestion.voice
      <-> truthy (VoiceTextQuestion.allowVoice question) = true)
  /\ (VoiceTextQuestion.responseType (VoiceTextQuestion.init question)
      = VoiceTextQuestion.text
      <-> truthy (VoiceTextQuestion.allowVoice question) = false).
Proof.
  assert (E : cfg_allowVoice p = true
              <-> exists c, campaignData p = Some c
                            /\ allowVoice (settings c) = true).
  { unfold cfg_allowVoice, campaign_flag.
    destruct (campaignData p) as [c |]; split.
    - intros H. exists c. split; [reflexivity | exact H].
    - intros (c' & Hc & H). injection Hc as <-. exact H.
    - discriminate.
    - intros (c' & Hc & _). discriminate Hc. }
  split; [| split; [| split; [reflexivity |]]].
  - rewrite <- E. simpl. destruct (cfg_allowVoice p); split; congruence.
  - rewrite <- E. simpl. destruct (cfg_allowVoice p); split; congruence.
  - simpl.
    destruct (truthy (VoiceTextQuestion.allowVoice question));
      repeat split; congruence.
Qed.

(** ** Submitting twice *)

Section Resubmission.

Variable p : Props.

Lemma reconcile_form (w : World) : form (reconcile p w) = form w.
Proof. reflexivity. Qed.

Lemma reconcile_idempotent (w : World) :
  reconcile p (reconcile p w) = reconcile p w.
Proof.
  unfold reconcile. simpl.
  destruct (recorderRendered p (form w)); reflexivity.
Qed.

Lemma step_reconciled (w : World) (e : Event) :
  reconcile p (step p w e) = step p w e.
Proof. apply reconcile_idempotent. Qed.

Lemma click_while_submitting (w : World) :
  isSubmitting (form w) = true -> reconcile p w = w ->
  step p w ClickSubmit = w.
Proof.
  intros Hi Hr. unfold step, dispatchEvent. rewrite Hi, orb_true_r.
  exact Hr.
Qed.

Lemma clicks_while_submitting (w : World) (n : nat) :
  isSubmitting (form w) = true -> reconcile p w = w ->
  run p w (repeat ClickSubmit n) = w.
Proof.
  intros Hi Hr. induction n as [| n IH]; [reflexivity |].
  change (run p w (repeat ClickSubmit (S n)))
    with (run p (step p w ClickSubmit) (repeat ClickSubmit n)).
  rewrite (click_while_submitting w Hi Hr). exact IH.
Qed.

Lemma click_accepted (w : World) :
  validate p (form w) = None ->
  submitted (form w) = false -> isSubmitting (form w) = false ->
  form (step p w ClickSubmit)
  = setError None (setIsSubmitting true (form w))
  /\ calls (step p w ClickSubmit)
     = (calls w ++ [buildFormData p (form w)])%list
  /\ pending (step p w ClickSubmit) = S (pending w).
Proof.
  intros Hv Hs Hi. unfold step, dispatchEvent.
  rewrite Hs, Hi. simpl orb. cbv iota.
  rewrite (handleSubmit_accepts p (form w) Hv).
  destruct (recorderRendered p (form w)); simpl;
    (split; [reflexivity |]); (split; [reflexivity | lia]).
Qed.

Lemma step_in_flight (w : World) (e : Event) :
  pending w = (if isSubmitting (form w) then 1 else 0) ->
  pending (step p w e)
  = (if isSubmitting (form (step p w e)) then 1 else 0).
Proof.
  intros Hw.
  change (pending (step p w e)) with (pending (dispatchEvent p w e)).
  change (form (step p w e)) with (form (dispatchEvent p w e)).
  destruct e as [v | i | k v | | | re | v | c | | o]; unfold dispatchEvent.
  - destruct (orderInputRendered _ _); exact Hw.
  - destruct (npsRendered _ _ && _); exact Hw.
  - destruct (renderQuestions p !! k) as [b |]; [| exact Hw].
    destruct (submitted (form w)), (block_inputs b); exact Hw.
  - destruct (tabsRendered _ _); exact Hw.
  - destruct (tabsRendered _ _); exact Hw.
  - destruct (recorder w) as [r |]; [| exact Hw].
    destruct (recorder_step r re) as [[r' [b |]] |]; exact Hw.
  - destruct (textareaRendered _ _); exact Hw.
  - destruct (submitted (form w)); exact Hw.
  - destruct (submitted (form w)); [exact Hw |].
    destruct (isSubmitting (form w)) eqn:Hi;
      [simpl orb; cbv iota; rewrite Hi; exact Hw |].
    simpl orb. cbv iota. unfold handleSubmit.
    destruct (validate p (form w)); simpl.
    + rewrite Hi. lia.
    + destruct (recorderRendered p (form w)); simpl; lia.
  - destruct (pending w) as [| n] eqn:Hp; [rewrite Hp; exact Hw |].
    destruct (isSubmitting (form w)); [| discriminate Hw].
    injection Hw as ->. destruct o; reflexivity.
Qed.

(** From mount on, a request is in flight exactly while [isSubmitting] is
    set, and never more than one. *)
Lemma one_request_in_flight (es : list Event) :
  pending (run p (mount p) es)
  = (if isSubmitting (form (run p (mount p) es)) then 1 else 0).
Proof.
  assert (G : forall w,
             pending w = (if isSubmitting (form w) then 1 else 0) ->
             pending (run p w es)
             = (if isSubmitting (form (run p w es)) then 1 else 0)).
  { induction es as [| e rest IH]; intros w Hw; [exact Hw |].
    change (run p w (e :: rest)) with (run p (step p w e) rest).
    apply IH. apply step_in_flight. exact Hw. }
  apply G. reflexivity.
Qed.

End Resubmission.

(** C4. For a session that passes validation, the first click on submit
    issues one request and puts the form in the submitting state; while that
    request is in flight the button is disabled, so a second click, and any
    number of further clicks, change nothing: two clicks in immediate
    succession leave exactly one request issued. *)
Theorem resubmit_ignored (p : Props) (w : World) :
  validate p (form w) = None ->
  submitted (form w) = false -> isSubmitting (form w) = false ->
  calls (step p w ClickSubmit) = (calls w ++ [buildFormData p (form w)])%list
  /\ submissionState (form (step p w ClickSubmit)) = submitting
  /\ step p (step p w ClickSubmit) ClickSubmit = step p w ClickSubmit
  /\ calls (run p w [ClickSubmit; ClickSubmit])
     = (calls w ++ [buildFormData p (form w)])%list
  /\ forall n, run p (step p w ClickSubmit) (repeat ClickSubmit n)
               = step p w ClickSubmit.
Proof.
  intros Hv Hs Hi.
  destruct (click_accepted p w Hv Hs Hi) as (Hf & Hc & _).
  assert (Hi1 : isSubmitting (form (step p w ClickSubmit)) = true)
    by (rewrite Hf; reflexivity).
  assert (H2 : step p (step p w ClickSubmit) ClickSubmit
               = step p w ClickSubmit)
    by (apply click_while_submitting;
        [exact Hi1 | apply step_reconciled]).
  split; [exact Hc |].
  split; [rewrite Hf; unfold submissionState; simpl; rewrite Hs;
          reflexivity |].
  split; [exact H2 |].
  split.
  - change (run p w [ClickSubmit; ClickSubmit])
      with (step p (step p w ClickSubmit) ClickSubmit).
    rewrite H2. exact Hc.
  - intros n. apply clicks_while_submitting;
      [exact Hi1 | apply step_reconciled].
Qed.

Lemma resubmit_ignored_witness :
  length
    (calls (run Examples.survey_props
              (with_form Examples.complete (mount Examples.survey_props))
              [ClickSubmit; ClickSubmit])) = 1.
Proof.
  destruct (resubmit_ignored Examples.survey_props
              (with_form Examples.complete (mount Examples.survey_props))
              eq_refl eq_refl eq_refl) as (_ & _ & _ & H & _).
  rewrite H. reflexivity.
Defined.

(** ** Switching the mode while recording *)

Section ModeSwitch.

Variable p : Props.






End ModeSwitch.



(** ** Questions of a type the form has no input for *)

Section UnrecognisedType.

Lemma dispatch_unrecognised (q : CampaignQuestion) :
  recognised (q_type q) = false -> dispatch q = [].
Proof.
  unfold recognised, dispatch. intros H.
  apply orb_false_elim in H as [H H4].
  apply orb_false_elim in H as [H H3].
  apply orb_false_elim in H as [H1 H2].
  rewrite H1, H2, H3, H4. reflexivity.
Qed.

Lemma dispatch_recognised (q : CampaignQuestion) :
  recognised (q_type q) = true -> exists i, dispatch q = [i].
Proof.
  unfold recognised, dispatch.
  destruct (String.eqb_spec (q_type q) "text") as [E | _];
    [rewrite E; eexists; reflexivity |].
  destruct (String.eqb_spec (q_type q) "rating") as [E | _];
    [rewrite E; eexists; reflexivity |].
  destruct (String.eqb_spec (q_type q) "multiple_choice") as [E | _];
    [rewrite E; eexists; reflexivity |].
  destruct (String.eqb_spec (q_type q) "yes_no") as [E | _];
    [eexists; reflexivity | discriminate].
Qed.

Variable p : Props.

Lemma with_questions_flags (qs : list CampaignQuestion) :
  cfg_allowVoice (with_questions qs p) = cfg_allowVoice p
  /\ cfg_allowText (with_questions qs p) = cfg_allowText p
  /\ cfg_requireOrderId (with_questions qs p) = cfg_requireOrderId p
  /\ cfg_include_nps (with_questions qs p) = cfg_include_nps p
  /\ cfg_include_additional_questions (with_questions qs p)
     = cfg_include_additional_questions p.
Proof.
  unfold cfg_allowVoice, cfg_allowText, cfg_requireOrderId, cfg_include_nps,
    cfg_include_additional_questions, campaign_flag, with_questions.
  simpl. destruct (campaignData p); repeat split; reflexivity.
Qed.

Lemma with_questions_questions (qs : list CampaignQuestion) :
  campaignData p <> None -> campaign_questions (with_questions qs p) = qs.
Proof.
  unfold campaign_questions, with_questions. simpl.
  destruct (campaignData p); [reflexivity | congruence].
Qed.

Lemma questions_present (qs : list CampaignQuestion) :
  campaign_questions p = qs -> qs <> [] -> campaignData p <> None.
Proof.
  unfold campaign_questions. destruct (campaignData p);
    [discriminate | congruence].
Qed.

Lemma validate_without_optional (pre post : list CampaignQuestion)
    (q : CampaignQuestion) (s : State) :
  campaign_questions p = (pre ++ q :: post)%list ->
  required q = false ->
  validate (with_questions (pre ++ post)%list p) s = validate p s.
Proof.
  intros Hq Hr.
  destruct (with_questions_flags (pre ++ post)%list)
    as (_ & _ & Ho & Hn & Ha).
  assert (Hd : campaignData p <> None)
    by (apply (questions_present _ Hq); destruct pre; discriminate).
  unfold validate, fails_nps, fails_order, fails_required, missingRequired.
  rewrite Ho, Hn, Ha, (with_questions_questions _ Hd), Hq.
  rewrite !existsb_app. simpl existsb.
  replace (missing (questionResponses s) q) with false
    by (unfold missing; rewrite Hr; reflexivity).
  reflexivity.
Qed.

End UnrecognisedType.

Lemma odd_form_never_answered (es : list Event) :
  forall w : World,
    questionResponses (form w) = ∅ ->
    questionResponses (form (run Examples.odd_props w es)) = ∅.
Proof.
  induction es as [| e rest IH]; intros w Hw; [exact Hw |].
  change (run Examples.odd_props w (e :: rest))
    with (run Examples.odd_props (step Examples.odd_props w e) rest).
  apply IH.
  change (form (step Examples.odd_props w e))
    with (form (dispatchEvent Examples.odd_props w e)).
  destruct e as [v | i | k v | | | re | v | c | | o];
    unfold dispatchEvent.
  - destruct (orderInputRendered _ _); exact Hw.
  - destruct (npsRendered _ _ && _); exact Hw.
  - destruct k as [| k]; simpl; [destruct (submitted (form w)) |]; exact Hw.
  - destruct (tabsRendered _ _); exact Hw.
  - destruct (tabsRendered _ _); exact Hw.
  - destruct (recorder w) as [r |]; [| exact Hw].
    destruct (recorder_step r re) as [[r' [b |]] |]; exact Hw.
  - destruct (textareaRendered _ _); exact Hw.
  - destruct (submitted (form w)); exact Hw.
  - destruct (submitted (form w) || isSubmitting (form w)); [exact Hw |].
    unfold handleSubmit. destruct (validate _ _); exact Hw.
  - destruct (pending w); [exact Hw |]. destruct o; exact Hw.
Qed.

Lemma odd_form_never_valid (s : State) :
  questionResponses s = ∅ -> validate Examples.odd_props s <> None.
Proof.
  intros H. unfold validate, fails_required, missingRequired, missing.
  rewrite H.
  destruct (fails_consent s); [discriminate |].
  destruct (fails_nps _ s); [discriminate |].
  destruct (fails_order _ s); discriminate.
Qed.

(** C9, as stated, does not hold: a campaign whose one question is required
    and of type ['nps'] (a declared question type the form has no input for)
    can never be submitted. No sequence of events on the mounted form gives
    the question an answer, so validation fails in every state the form can
    reach. *)
Lemma required_unrecognised_blocks_submission :
  ~ (forall (p : Props) (q : CampaignQuestion),
       In q (campaign_questions p) -> recognised (q_type q) = false ->
       dispatch q = []
       /\ exists es, validate p (form (run p (mount p) es)) = None).
Proof.
  intros H.
  destruct (H Examples.odd_props (Examples.question "q1" "nps" true)
              (or_introl eq_refl) eq_refl) as (_ & es & Hv).
  refine (odd_form_never_valid _
            (odd_form_never_answered es (mount Examples.odd_props) _) Hv).
  reflexivity.
Qed.

(** C9, amended. A question whose type is none of text, rating,
    multiple_choice and yes_no gets its label and no input, and an event
    aimed at its block changes nothing; the other questions are rendered as
    they would be without it. When that question is not required, validation
    decides exactly as it would for the campaign without the question, so it
    does not stand in the way of submitting. *)
Theorem unrecognised_type_renders_nothing (p : Props)
    (pre post : list CampaignQuestion) (q : CampaignQuestion) :
  campaign_questions p = (pre ++ q :: post)%list ->
  recognised (q_type q) = false ->
  dispatch q = []
  /\ (cfg_include_additional_questions p = true ->
      renderQuestions p
      = (map renderQuestion pre
         ++ {| block_key := q_id q; block_label := q_text q;
               block_star := required q; block_inputs := [] |}
         :: map renderQuestion post)%list)
  /\ (forall w v,
        dispatchEvent p w (ChangeQuestion (length pre) v) = w)
  /\ (required q = false ->
      forall s,
        validate p s = validate (with_questions (pre ++ post)%list p) s).
Proof.
  intros Hq Hu.
  pose proof (dispatch_unrecognised q Hu) as Hd.
  assert (Hr : cfg_include_additional_questions p = true ->
               renderQuestions p
               = (map renderQuestion pre
                  ++ {| block_key := q_id q; block_label := q_text q;
                        block_star := required q; block_inputs := [] |}
                  :: map renderQuestion post)%list).
  { intros Ha. unfold renderQuestions. rewrite Ha, Hq.
    replace (0 <? length (pre ++ q :: post))%nat with true
      by (symmetry; apply Nat.ltb_lt; rewrite length_app; simpl; lia).
    simpl. rewrite map_app. simpl. unfold renderQuestion at 2.
    rewrite Hd. reflexivity. }
  split; [exact Hd |].
  split; [exact Hr |].
  split.
  - intros w v. unfold dispatchEvent.
    destruct (cfg_include_additional_questions p) eqn:Ha.
    + rewrite (Hr eq_refl).
      rewrite list_lookup_middle by (rewrite length_map; reflexivity).
      simpl. destruct (submitted (form w)); reflexivity.
    + unfold renderQuestions. rewrite Ha. reflexivity.
  - intros Hreq s. symmetry.
    exact (validate_without_optional p pre post q s Hq Hreq).
Qed.

Lemma unrecognised_type_renders_nothing_witness :
  validate
    (Examples.props "ORD-1"
       (Examples.campaign false true
          [Examples.question "q0" "text" true;
           Examples.question "q1" "nps" false] true true None))
    (handleQuestionResponse "q0" (JStr "fine") Examples.silent)
  = None.
Proof.
  destruct (unrecognised_type_renders_nothing
              (Examples.props "ORD-1"
                 (Examples.campaign false true
                    [Examples.question "q0" "text" true;
                     Examples.question "q1" "nps" false] true true None))
              [Examples.question "q0" "text" true] []
              (Examples.question "q1" "nps" false) eq_refl eq_refl)
    as (_ & _ & _ & H).
  rewrite (H eq_refl). reflexivity.
Defined.

(** * Further properties of the form *)

(** ** Reachable worlds *)

Section Reachability.

Variable p : Props.

Lemma form_step (w : World) (e : Event) :
  FormStep p w (form (step p w e)).
Proof.
  change (form (step p w e)) with (form (dispatchEvent p w e)).
  destruct e as [v | i | k v | | | re | v | c | | o]; unfold dispatchEvent.
  - destruct (orderInputRendered p (form w)) eqn:E;
      [apply fs_orderId; exact E | apply fs_none].
  - destruct (npsRendered p (form w)) eqn:E; [| apply fs_none].
    destruct (Nat.ltb_spec i 10) as [Hi | _]; [| apply fs_none].
    apply fs_nps; [exact E | exact Hi].
  - destruct (renderQuestions p !! k) as [b |] eqn:E; [| apply fs_none].
    destruct (submitted (form w)) eqn:Es; [apply fs_none |].
    destruct (block_inputs b) as [| i l] eqn:Eb; [apply fs_none |].
    apply fs_question; [| rewrite Eb; discriminate | exact Es].
    apply list_elem_of_In. eapply list_elem_of_lookup_2. exact E.
  - destruct (tabsRendered p (form w)) eqn:E;
      [apply fs_mode; exact E | apply fs_none].
  - destruct (tabsRendered p (form w)) eqn:E;
      [apply fs_mode; exact E | apply fs_none].
  - destruct (recorder w) as [r |] eqn:E; [| apply fs_none].
    destruct (recorder_step r re) as [[r' [b |]] |]; simpl;
      [eapply fs_blob; exact E | apply fs_none | apply fs_none].
  - destruct (textareaRendered p (form w)) eqn:E;
      [apply fs_text; exact E | apply fs_none].
  - destruct (submitted (form w)) eqn:E;
      [apply fs_none | apply fs_consent; exact E].
  - destruct (submitted (form w)) eqn:Es; [apply fs_none |].
    destruct (isSubmitting (form w)) eqn:Ei; [apply fs_none |].
    simpl orb. cbv iota. unfold handleSubmit.
    destruct (validate p (form w)) as [m |] eqn:Ev.
    + apply fs_rejected; assumption.
    + apply fs_accepted; assumption.
  - destruct (pending w) as [| n] eqn:E; [apply fs_none |].
    eapply fs_settled. exact E.
Qed.

Lemma reachable_run (es : list Event) : reachable p (run p (mount p) es).
Proof.
  assert (G : forall w, reachable p w -> reachable p (run p w es)).
  { induction es as [| e rest IH]; intros w Hw; [exact Hw |].
    change (run p w (e :: rest)) with (run p (step p w e) rest).
    apply IH. apply reach_step. exact Hw. }
  apply G. apply reach_mount.
Qed.

Lemma reachable_is_run (w : World) :
  reachable p w -> exists es, w = run p (mount p) es.
Proof.
  induction 1 as [| w e _ [es ->]]; [exists []; reflexivity |].
  exists (es ++ [e])%list. unfold run. rewrite fold_left_app. reflexivity.
Qed.

Lemma reachable_reconciled (w : World) :
  reachable p w -> reconcile p w = w.
Proof.
  destruct 1; [unfold mount |]; apply reconcile_idempotent.
Qed.

Lemma reachable_recorder (w : World) (r : RecorderStatus) :
  reachable p w -> recorder w = Some r ->
  recorderRendered p (form w) = true.
Proof.
  intros Hw Hr. apply reachable_reconciled in Hw.
  rewrite <- Hw in Hr. unfold reconcile in Hr. simpl in Hr.
  destruct (recorderRendered p (form w)); [reflexivity | discriminate Hr].
Qed.

Lemma reachable_in_flight (w : World) :
  reachable p w ->
  pending w = (if isSubmitting (form w) then 1 else 0)%nat.
Proof.
  intros Hw. destruct (reachable_is_run w Hw) as [es ->].
  apply one_request_in_flight.
Qed.

(** An invariant of the component state: true at mount and kept by every
    handler that can run. *)
Lemma reachable_form_ind (I : State -> Prop) :
  I (init p) ->
  (forall w s', reachable p w -> I (form w) -> FormStep p w s' -> I s') ->
  forall w, reachable p w -> I (form w).
Proof.
  intros H0 Hstep w Hw. induction Hw as [| w e Hw IH]; [exact H0 |].
  apply (Hstep w _ Hw IH). apply form_step.
Qed.

End Reachability.

(** ** The NPS score *)

Lemma nps_invariant (p : Props) (w : World) :
  reachable p w ->
  forall n, npsScore (form w) = Some n ->
            (1 <= n <= 10)%Z /\ cfg_include_nps p = true.
Proof.
  revert w.
  apply (reachable_form_ind p
           (fun s => forall n, npsScore s = Some n ->
                               (1 <= n <= 10)%Z /\ cfg_include_nps p = true));
    [discriminate |].
  intros w s' _ IH Hs. destruct Hs as [| | i Hr Hi | | | | | | | | o];
    simpl; try exact IH.
  - intros n [= <-]. split; [lia |].
    unfold npsRendered in Hr. apply andb_prop in Hr. apply Hr.
  - destruct o; exact IH.
Qed.

(** X1. Whatever happens to a mounted form, a chosen NPS score is one of 1
    to 10 and the campaign includes NPS; so a chosen score is never mistaken
    for a missing one by the NPS rule. *)
Theorem nps_score_in_range (p : Props) (es : list Event) (n : Z) :
  npsScore (form (run p (mount p) es)) = Some n ->
  (1 <= n <= 10)%Z
  /\ cfg_include_nps p = true
  /\ fails_nps p (form (run p (mount p) es)) = false.
Proof.
  intros H.
  destruct (nps_invariant p _ (reachable_run p es) n H) as [Hn Hi].
  split; [exact Hn |]. split; [exact Hi |].
  unfold fails_nps. rewrite H. simpl.
  replace (n =? 0)%Z with false by (symmetry; apply Z.eqb_neq; lia).
  apply andb_false_r.
Qed.

Lemma nps_score_in_range_witness :
  (1 <= 9 <= 10)%Z
  /\ cfg_include_nps Examples.survey_props = true
  /\ fails_nps Examples.survey_props
       (form (run Examples.survey_props (mount Examples.survey_props)
                [ClickNps 3; ClickNps 8])) = false.
Proof.
  apply (nps_score_in_range Examples.survey_props [ClickNps 3; ClickNps 8]).
  reflexivity.
Defined.

(** ** The two channels *)

Lemma channel_invariant (p : Props) (w : World) :
  reachable p w ->
  (feedbackType (form w) = voice -> cfg_allowVoice p = true)
  /\ (feedbackType (form w) = text -> cfg_allowText p = false ->
      cfg_allowVoice p = false)
  /\ (audioBlob (form w) <> None -> cfg_allowVoice p = true)
  /\ (textFeedback (form w) <> "" -> cfg_allowText p = true).
Proof.
  revert w.
  apply (reachable_form_ind p
           (fun s =>
              (feedbackType s = voice -> cfg_allowVoice p = true)
              /\ (feedbackType s = text -> cfg_allowText p = false ->
                  cfg_allowVoice p = false)
              /\ (audioBlob s <> None -> cfg_allowVoice p = true)
              /\ (textFeedback s <> "" -> cfg_allowText p = true))).
  - simpl. destruct (cfg_allowVoice p); repeat split; congruence.
  - intros w s' Hw IH Hs.
    destruct Hs as [| | | | m Ht | r b Hr | v Ht | | | | o];
      simpl; try exact IH.
    + unfold tabsRendered in Ht.
      apply andb_prop in Ht as [Ht Hx]. apply andb_prop in Ht as [_ Hv].
      destruct IH as (_ & _ & H3 & H4).
      repeat split; try assumption; congruence.
    + destruct IH as (H1 & H2 & _ & H4).
      repeat split; try assumption. intros _.
      pose proof (reachable_recorder p w r Hw Hr) as Hrr.
      unfold recorderRendered in Hrr. apply andb_prop in Hrr as [_ Hrr].
      destruct (feedbackType (form w)); [exact Hrr | discriminate Hrr].
    + destruct IH as (H1 & H2 & H3 & _).
      repeat split; try assumption. intros _.
      unfold textareaRendered in Ht. apply andb_prop in Ht. apply Ht.
    + destruct o; exact IH.
Qed.

(** X2. A campaign never receives feedback through a channel it does not
    allow: whatever happens to a mounted form, its payload carries an audio
    field only if the campaign allows voice, and a textFeedback field only if
    it allows text. *)
Theorem disallowed_channel_never_sent (p : Props) (es : list Event) :
  (has "audio" (buildFormData p (form (run p (mount p) es))) = true ->
   cfg_allowVoice p = true)
  /\ (has "textFeedback" (buildFormData p (form (run p (mount p) es))) = true
      -> cfg_allowText p = true).
Proof.
  destruct (channel_invariant p _ (reachable_run p es))
    as (_ & _ & Hb & Ht).
  split; intros H.
  - apply has_audio in H. apply Hb, H.
  - apply has_textFeedback in H. apply Ht, H.
Qed.

Lemma disallowed_channel_never_sent_witness :
  cfg_allowText Examples.bare_props = true.
Proof.
  apply (disallowed_channel_never_sent Examples.bare_props
           [ClickTextTab; ChangeTextFeedback "fine"]).
  reflexivity.
Defined.

(** X3. While the form is shown, the feedback section is never a dead end
    unless the campaign allows neither channel: after any events, if voice or
    text is allowed then exactly one of the recorder and the text area is on
    the page, and if neither is allowed then neither is. *)
Theorem one_feedback_panel (p : Props) (es : list Event) :
  submitted (form (run p (mount p) es)) = false ->
  xorb (recorderRendered p (form (run p (mount p) es)))
       (textareaRendered p (form (run p (mount p) es)))
  = cfg_allowVoice p || cfg_allowText p.
Proof.
  intros Hs.
  destruct (channel_invariant p _ (reachable_run p es))
    as (Hv & Ht & _ & _).
  unfold recorderRendered, textareaRendered. rewrite Hs. simpl.
  destruct (feedbackType (form (run p (mount p) es))).
  - rewrite (Hv eq_refl). reflexivity.
  - simpl. destruct (cfg_allowText p) eqn:E.
    + rewrite orb_true_r. reflexivity.
    + rewrite (Ht eq_refl eq_refl). reflexivity.
Qed.

Lemma one_feedback_panel_witness :
  xorb (recorderRendered Examples.bare_props
          (form (run Examples.bare_props (mount Examples.bare_props)
                   Examples.second_take)))
       (textareaRendered Examples.bare_props
          (form (run Examples.bare_props (mount Examples.bare_props)
                   Examples.second_take)))
  = true.
Proof.
  apply (one_feedback_panel Examples.bare_props Examples.second_take).
  reflexivity.
Defined.

(** ** After a successful submission *)

Lemma submitted_not_submitting (p : Props) (w : World) :
  reachable p w ->
  submitted (form w) = true -> isSubmitting (form w) = false.
Proof.
  revert w.
  apply (reachable_form_ind p
           (fun s => submitted s = true -> isSubmitting s = false));
    [discriminate |].
  intros w s' _ IH Hs.
  destruct Hs as [| | | | | | | | m Hsub | Hsub | o]; simpl; try exact IH.
  - congruence.
  - destruct o; reflexivity.
Qed.

Lemma submitted_is_terminal (p : Props) (w : World) (e : Event) :
  reachable p w -> submitted (form w) = true -> step p w e = w.
Proof.
  intros Hw Hs.
  pose proof (reachable_reconciled p w Hw) as Hr.
  assert (Hp : pending w = 0%nat).
  { rewrite (reachable_in_flight p w Hw).
    rewrite (submitted_not_submitting p w Hw Hs). reflexivity. }
  assert (Hrec : recorder w = None).
  { rewrite <- Hr. unfold reconcile, recorderRendered. simpl.
    rewrite Hs. reflexivity. }
  assert (Hd : dispatchEvent p w e = w).
  { destruct e as [v | i | k v | | | re | v | c | | o];
      unfold dispatchEvent, orderInputRendered, npsRendered, tabsRendered,
        textareaRendered;
      rewrite ?Hs, ?Hrec, ?Hp; simpl; try reflexivity.
    destruct (renderQuestions p !! k); reflexivity. }
  unfold step. rewrite Hd. exact Hr.
Qed.

(** X4. A successful submission is final. Once the request of a mounted form
    has settled with an ok response, the form is in the submitted state with
    nothing in flight, and no later event of any kind changes the session or
    issues another request. *)
Theorem submitted_is_final (p : Props) (es later : list Event) :
  submitted (form (run p (mount p) es)) = true ->
  submissionState (form (run p (mount p) es)) = submittedState
  /\ pending (run p (mount p) es) = 0%nat
  /\ run p (run p (mount p) es) later = run p (mount p) es.
Proof.
  intros Hs. pose proof (reachable_run p es) as Hw.
  split; [unfold submissionState; rewrite Hs; reflexivity |].
  split.
  - rewrite (reachable_in_flight p _ Hw).
    rewrite (submitted_not_submitting p _ Hw Hs). reflexivity.
  - induction later as [| e rest IH]; [reflexivity |].
    change (run p ?w (e :: rest)) with (run p (step p w e) rest).
    rewrite (submitted_is_terminal p _ e Hw Hs). exact IH.
Qed.

Lemma submitted_is_final_witness :
  run Examples.bare_props
    (run Examples.bare_props (mount Examples.bare_props)
       [ChangeConsent true; ClickSubmit; FetchSettles ResponseOk])
    [ChangeConsent false; ClickTextTab; ClickSubmit;
     FetchSettles TransportFailure]
  = run Examples.bare_props (mount Examples.bare_props)
      [ChangeConsent true; ClickSubmit; FetchSettles ResponseOk].
Proof.
  apply (submitted_is_final Examples.bare_props
           [ChangeConsent true; ClickSubmit; FetchSettles ResponseOk]).
  reflexivity.
Defined.

(** ** Reading the payload back *)

Lemma getField_append (name field : string) (v : FormValue)
    (fd : FormData) :
  getField name (append field v fd)
  = match getField name fd with
    | Some x => Some x
    | None => if String.eqb field name then Some v else None
    end.
Proof.
  unfold getField, append.
  induction fd as [| [k x] rest IH]; simpl.
  - destruct (String.eqb field name); reflexivity.
  - destruct (String.eqb k name); [reflexivity | exact IH].
Qed.

Lemma fieldNames_append (field : string) (v : FormValue) (fd : FormData) :
  fieldNames (append field v fd) = (fieldNames fd ++ [field])%list.
Proof. unfold fieldNames, append. rewrite map_app. reflexivity. Qed.

Ltac payload_split p s :=
  unfold buildFormData;
  destruct (feedbackType s), (audioBlob s) as [b |],
    (truthy_string (textFeedback s)) eqn:Et,
    (campaignId p) as [c |];
  cbv beta iota zeta; try destruct (truthy_string c) eqn:Ec;
  destruct (npsScore s) as [n |]; cbv beta iota zeta;
  try destruct (cfg_include_nps p && truthy_number (Some n)) eqn:En;
  destruct (0 <? length (Object_keys (questionResponses s)))%nat eqn:Ek.

Lemma getField_orderId (p : Props) (s : State) :
  getField "orderId" (buildFormData p s) = Some (FString (localOrderId s)).
Proof.
  payload_split p s; rewrite ?getField_append; reflexivity.
Qed.

Lemma stringified_lookup (obj : gmap string JSValue) (k : string) :
  stringified obj !! k
  = match obj !! k with
    | Some JUndefined => None
    | Some v => Some v
    | None => None
    end.
Proof.
  unfold stringified. rewrite map_lookup_filter.
  destruct (obj !! k) as [v |]; [| reflexivity]. simpl.
  destruct v; simpl; try reflexivity;
    apply option_guard_True; discriminate.
Qed.

Lemma toString_score (n : Z) :
  (1 <= n <= 10)%Z ->
  In (toString n) ["1"; "2"; "3"; "4"; "5"; "6"; "7"; "8"; "9"; "10"].
Proof.
  intros H.
  assert (E : (n = 1 \/ n = 2 \/ n = 3 \/ n = 4 \/ n = 5 \/ n = 6
               \/ n = 7 \/ n = 8 \/ n = 9 \/ n = 10)%Z) by lia.
  repeat (destruct E as [-> | E]; [vm_compute; tauto |]).
  subst n. vm_compute. tauto.
Qed.

(** X6. Reading a payload back gives the session it was built from, for a
    session whose NPS score, if set, is one of 1 to 10 (as it is after any
    events on a mounted form). The field names are pairwise distinct;
    orderId and companyId are always there, orderId holding the current
    order id even when it is empty; audio holds the blob exactly in voice
    mode with a blob; textFeedback holds the text exactly in text mode with
    non-empty text; campaignId is there exactly for a non-empty campaign id;
    npsScore is there exactly when the campaign includes NPS and a score is
    set, and holds its numeral, one of "1" to "10"; questionResponses is
    there exactly when the response object has a key, and holds the object
    as [JSON.stringify] writes it, that is without the keys whose value is
    [undefined]. *)
Theorem payload_read_back (p : Props) (s : State) :
  (forall n, npsScore s = Some n -> (1 <= n <= 10)%Z) ->
  NoDup (fieldNames (buildFormData p s))
  /\ getField "orderId" (buildFormData p s) = Some (FString (localOrderId s))
  /\ getField "companyId" (buildFormData p s) = Some (FString (companyId p))
  /\ getField "audio" (buildFormData p s)
     = match feedbackType s, audioBlob s with
       | voice, Some b => Some (FBlob b)
       | _, _ => None
       end
  /\ getField "textFeedback" (buildFormData p s)
     = match feedbackType s with
       | text => if truthy_string (textFeedback s)
                 then Some (FString (textFeedback s)) else None
       | voice => None
       end
  /\ getField "campaignId" (buildFormData p s)
     = match campaignId p with
       | Some c => if truthy_string c then Some (FString c) else None
       | None => None
       end
  /\ getField "npsScore" (buildFormData p s)
     = match npsScore s with
       | Some n => if cfg_include_nps p
                   then Some (FString (toString n)) else None
       | None => None
       end
  /\ (forall n, npsScore s = Some n ->
        In (toString n)
          ["1"; "2"; "3"; "4"; "5"; "6"; "7"; "8"; "9"; "10"])
  /\ getField "questionResponses" (buildFormData p s)
     = (if (0 <? length (Object_keys (questionResponses s)))%nat
        then Some (FJson (stringified (questionResponses s))) else None)
  /\ (forall k,
        stringified (questionResponses s) !! k
        = match questionResponses s !! k with
          | Some JUndefined => None
          | Some v => Some v
          | None => None
          end).
Proof.
  intros Hn.
  split.
  { payload_split p s; rewrite ?fieldNames_append; simpl;
      apply (bool_decide_unpack _); vm_compute; exact I. }
  assert (Hnz : forall n, npsScore s = Some n ->
                  cfg_include_nps p && truthy_number (Some n)
                  = cfg_include_nps p).
  { intros n H. specialize (Hn n H). simpl.
    replace (n =? 0)%Z with false by (symmetry; apply Z.eqb_neq; lia).
    apply andb_true_r. }
  do 5 (split; [payload_split p s; rewrite ?getField_append;
                reflexivity |]).
  split.
  { destruct (npsScore s) as [n |] eqn:En0.
    - rewrite <- (Hnz n eq_refl). clear Hnz Hn.
      unfold buildFormData. rewrite En0.
      destruct (feedbackType s), (audioBlob s) as [b |],
        (truthy_string (textFeedback s)), (campaignId p) as [c |];
        cbv beta iota zeta; try destruct (truthy_string c);
        destruct (cfg_include_nps p && truthy_number (Some n));
        destruct (0 <? length (Object_keys (questionResponses s)))%nat;
        rewrite ?getField_append; reflexivity.
    - unfold buildFormData. rewrite En0.
      destruct (feedbackType s), (audioBlob s) as [b |],
        (truthy_string (textFeedback s)), (campaignId p) as [c |];
        cbv beta iota zeta; try destruct (truthy_string c);
        destruct (0 <? length (Object_keys (questionResponses s)))%nat;
        rewrite ?getField_append; reflexivity. }
  split; [intros n H; apply toString_score; exact (Hn n H) |].
  split; [| intros k; apply stringified_lookup].
  payload_split p s; rewrite ?getField_append; reflexivity.
Qed.

Lemma payload_read_back_witness :
  getField "npsScore"
    (buildFormData Examples.survey_props Examples.complete)
  = Some (FString "9")
  /\ getField "questionResponses"
       (buildFormData Examples.survey_props
          (handleQuestionResponse "q2" JUndefined Examples.complete))
     = Some (FJson {[ "q1" := JStr "B" ]}).
Proof.
  split.
  - destruct (payload_read_back Examples.survey_props Examples.complete)
      as (_ & _ & _ & _ & _ & _ & H & _).
    + intros n [= <-]. lia.
    + rewrite H. reflexivity.
  - destruct (payload_read_back Examples.survey_props
                (handleQuestionResponse "q2" JUndefined Examples.complete))
      as (_ & _ & _ & _ & _ & _ & _ & _ & H & _).
    + intros n [= <-]. lia.
    + rewrite H. vm_compute. reflexivity.
Defined.

(** ** The order id *)

Lemma orderId_invariant (p : Props) (w : World) :
  reachable p w ->
  showOrderInput (form w) = negb (truthy_string (orderId p))
  /\ (truthy_string (orderId p) = true \/ cfg_requireOrderId p = false ->
      localOrderId (form w) = orderId p).
Proof.
  revert w.
  apply (reachable_form_ind p
           (fun s =>
              showOrderInput s = negb (truthy_string (orderId p))
              /\ (truthy_string (orderId p) = true
                  \/ cfg_requireOrderId p = false ->
                  localOrderId s = orderId p)));
    [split; reflexivity |].
  intros w s' _ IH Hs.
  destruct Hs as [| v Hr | | | | | | | | | o]; simpl; try exact IH.
  - destruct IH as [Hshow _]. split; [exact Hshow |].
    unfold orderInputRendered in Hr. rewrite Hshow in Hr.
    apply andb_prop in Hr as [Hr Hreq]. apply andb_prop in Hr as [_ Hr].
    intros [H | H]; [rewrite H in Hr; discriminate Hr | congruence].
  - destruct o; exact IH.
Qed.

(** X5. An order id that came with the link cannot be changed, and neither
    can an empty one when the campaign does not require an order id: in both
    cases the order id field is never on the page, and after any events the
    payload's orderId is the one the form was mounted with. *)
Theorem order_id_from_link_is_kept (p : Props) (es : list Event) :
  truthy_string (orderId p) = true \/ cfg_requireOrderId p = false ->
  orderInputRendered p (form (run p (mount p) es)) = false
  /\ localOrderId (form (run p (mount p) es)) = orderId p
  /\ getField "orderId" (buildFormData p (form (run p (mount p) es)))
     = Some (FString (orderId p)).
Proof.
  intros H.
  destruct (orderId_invariant p _ (reachable_run p es)) as [Hshow Hid].
  split.
  - unfold orderInputRendered. rewrite Hshow.
    destruct H as [-> | ->]; simpl; rewrite ?andb_false_r; reflexivity.
  - split; [exact (Hid H) |]. rewrite <- (Hid H).
    apply (getField_orderId p).
Qed.

Lemma order_id_from_link_is_kept_witness :
  localOrderId
    (form (run Examples.survey_props (mount Examples.survey_props)
             [ChangeOrderId "ORD-2"; ChangeConsent true]))
  = "ORD-1".
Proof.
  apply (order_id_from_link_is_kept Examples.survey_props
           [ChangeOrderId "ORD-2"; ChangeConsent true]).
  left. reflexivity.
Defined.

(** ** The keys of the response object *)

Lemma block_of_question (p : Props) (b : QuestionBlock) :
  In b (renderQuestions p) -> block_inputs b <> [] ->
  cfg_include_additional_questions p = true
  /\ exists q, In q (campaign_questions p) /\ q_id q = block_key b
               /\ recognised (q_type q) = true.
Proof.
  unfold renderQuestions. intros Hb Hi.
  destruct (cfg_include_additional_questions p); [| destruct Hb].
  split; [reflexivity |].
  destruct (0 <? length (campaign_questions p))%nat; [| destruct Hb].
  apply in_map_iff in Hb as (q & <- & Hq).
  exists q. split; [exact Hq |]. split; [reflexivity |].
  destruct (recognised (q_type q)) eqn:E; [reflexivity |].
  exfalso. apply Hi. simpl. apply dispatch_unrecognised. exact E.
Qed.

(** X7. The response object only ever holds answers to questions of the
    campaign: after any events on a mounted form, every key of
    [questionResponses] is the id of one of the campaign's questions, of a
    type the form has an input for, and additional questions are switched
    on. *)
Theorem responses_belong_to_campaign (p : Props) (es : list Event)
    (k : string) (v : JSValue) :
  questionResponses (form (run p (mount p) es)) !! k = Some v ->
  cfg_include_additional_questions p = true
  /\ exists q, In q (campaign_questions p) /\ q_id q = k
               /\ recognised (q_type q) = true.
Proof.
  revert k v.
  generalize (run p (mount p) es), (reachable_run p es).
  apply (reachable_form_ind p
           (fun s =>
              forall k v, questionResponses s !! k = Some v ->
                cfg_include_additional_questions p = true
                /\ exists q, In q (campaign_questions p) /\ q_id q = k
                             /\ recognised (q_type q) = true)).
  - intros k v H. simpl in H. rewrite lookup_empty in H. discriminate H.
  - intros w s' _ IH Hs.
    destruct Hs as [| | | b x Hb Hi _ | | | | | | | o]; simpl; try exact IH.
    + intros k v. rewrite lookup_insert.
      destruct (decide (block_key b = k)) as [<- | _]; [| apply IH].
      intros _. apply block_of_question; assumption.
    + destruct o; exact IH.
Qed.

Lemma responses_belong_to_campaign_witness :
  cfg_include_additional_questions Examples.survey_props = true
  /\ exists q, In q (campaign_questions Examples.survey_props)
               /\ q_id q = "q1" /\ recognised (q_type q) = true.
Proof.
  apply (responses_belong_to_campaign Examples.survey_props
           [ChangeQuestion 0 (JStr "A"); ChangeQuestion 3 (JStr "B")]
           "q1" (JStr "A")).
  reflexivity.
Defined.

(** ** A form without a campaign *)

Lemma no_campaign_flags (p : Props) :
  campaignData p = None ->
  cfg_allowVoice p = false /\ cfg_allowText p = false
  /\ cfg_requireOrderId p = false /\ cfg_include_nps p = false
  /\ cfg_include_additional_questions p = false.
Proof.
  intros H.
  unfold cfg_allowVoice, cfg_allowText, cfg_requireOrderId, cfg_include_nps,
    cfg_include_additional_questions, campaign_flag.
  rewrite H. repeat split.
Qed.

Lemma no_campaign_invariant (p : Props) (w : World) :
  campaignData p = None -> reachable p w ->
  topLevel (setConsent false (form w)) = topLevel (init p)
  /\ questionResponses (form w) = ∅.
Proof.
  intros Hc. revert w.
  destruct (no_campaign_flags p Hc) as (Hv & Ht & Ho & Hn & Ha).
  apply (reachable_form_ind p
           (fun s => topLevel (setConsent false s) = topLevel (init p)
                     /\ questionResponses s = ∅));
    [split; reflexivity |].
  intros w s' Hw IH Hs.
  destruct Hs as [| v Hr | i Hr _ | b x Hb Hi _ | m Hr | r b Hr | v Hr
                  | | | | o]; simpl; try exact IH.
  - unfold orderInputRendered in Hr. rewrite Ho, andb_false_r in Hr.
    discriminate Hr.
  - unfold npsRendered in Hr. rewrite Hn, andb_false_r in Hr.
    discriminate Hr.
  - destruct (block_of_question p b Hb Hi) as [Hx _]. congruence.
  - unfold tabsRendered in Hr. rewrite Ht, andb_false_r in Hr.
    discriminate Hr.
  - pose proof (reachable_recorder p w r Hw Hr) as Hrr.
    unfold recorderRendered in Hrr. rewrite Hv in Hrr.
    destruct (feedbackType (form w)); rewrite andb_false_r in Hrr;
      discriminate Hrr.
  - unfold textareaRendered in Hr. rewrite Ht, andb_false_r in Hr.
    discriminate Hr.
  - destruct o; exact IH.
Qed.

(** X8. A form mounted without campaign data asks for consent and nothing
    else. Validation passes exactly when the consent box is ticked; no NPS
    buttons, questions, order id field, tabs, recorder or text area are ever
    on the page; and whatever the user does, the payload is the order id and
    company id of the mount, followed by the campaign id when one was
    given. *)
Theorem form_without_campaign (p : Props) (es : list Event) :
  campaignData p = None ->
  (forall s, validate p s = if consent s then None else Some msg_consent)
  /\ renderQuestions p = []
  /\ recorder (run p (mount p) es) = None
  /\ textareaRendered p (form (run p (mount p) es)) = false
  /\ buildFormData p (form (run p (mount p) es))
     = ([("orderId", FString (orderId p));
         ("companyId", FString (companyId p))]
        ++ match campaignId p with
           | Some c => if truthy_string c
                       then [("campaignId", FString c)] else []
           | None => []
           end)%list.
Proof.
  intros Hc.
  destruct (no_campaign_flags p Hc) as (Hv & Ht & Ho & Hn & Ha).
  pose proof (reachable_run p es) as Hw.
  destruct (no_campaign_invariant p _ Hc Hw) as [Htop Hq].
  split.
  { intros s. unfold validate, fails_consent, fails_nps, fails_order,
      fails_required.
    rewrite Hn, Ho, Ha, andb_false_r. destruct (consent s); reflexivity. }
  split; [unfold renderQuestions; rewrite Ha; reflexivity |].
  split.
  { rewrite <- (reachable_reconciled p _ Hw). unfold reconcile. simpl.
    unfold recorderRendered. rewrite Hv.
    destruct (feedbackType _); rewrite andb_false_r; reflexivity. }
  split; [unfold textareaRendered; rewrite Ht; apply andb_false_r |].
  unfold topLevel in Htop. simpl in Htop. rewrite Hv in Htop.
  injection Htop as H1 H2 H3 H4 H5.
  unfold buildFormData. rewrite H1, H2, H3, H4, H5, Hq.
  destruct (campaignId p) as [c |]; [destruct (truthy_string c) |];
    reflexivity.
Qed.

Lemma form_without_campaign_witness :
  buildFormData
    {| orderId := "ORD-7"; companyId := "acme"; campaignId := None;
       campaignData := None |}
    (form (run {| orderId := "ORD-7"; companyId := "acme";
                  campaignId := None; campaignData := None |}
             (mount {| orderId := "ORD-7"; companyId := "acme";
                       campaignId := None; campaignData := None |})
             [ClickNps 4; ChangeTextFeedback "hello"; ChangeConsent true]))
  = [("orderId", FString "ORD-7"); ("companyId", FString "acme")].
Proof.
  destruct (form_without_campaign
              {| orderId := "ORD-7"; companyId := "acme";
                 campaignId := None; campaignData := None |}
              [ClickNps 4; ChangeTextFeedback "hello"; ChangeConsent true]
              eq_refl) as (_ & _ & _ & _ & H).
  rewrite H. reflexivity.
Defined.

(** ** Retrying by hand *)

Lemma setError_frame (p : Props) (s : State) (e : option string)
    (b : bool) :
  validate p (setIsSubmitting b (setError e s)) = validate p s
  /\ buildFormData p (setIsSubmitting b (setError e s)) = buildFormData p s
  /\ recorderRendered p (setIsSubmitting b (setError e s))
     = recorderRendered p s.
Proof. repeat split. Qed.

(** X9. Nothing is retried automatically, and a retry by hand sends the same
    payload again. For a session that passes validation with nothing in
    flight: click, failure, click leaves two requests issued, both carrying
    the payload of the session, with the second one in flight and the form
    back in the submitting state. *)
Theorem manual_retry_resends (p : Props) (w : World) (o : FetchOutcome) :
  validate p (form w) = None ->
  submitted (form w) = false -> isSubmitting (form w) = false ->
  pending w = 0%nat -> o <> ResponseOk ->
  calls (run p w [ClickSubmit; FetchSettles o])
  = (calls w ++ [buildFormData p (form w)])%list
  /\ pending (run p w [ClickSubmit; FetchSettles o]) = 0%nat
  /\ calls (run p w [ClickSubmit; FetchSettles o; ClickSubmit])
     = (calls w ++ [buildFormData p (form w); buildFormData p (form w)])%list
  /\ pending (run p w [ClickSubmit; FetchSettles o; ClickSubmit]) = 1%nat
  /\ submissionState
       (form (run p w [ClickSubmit; FetchSettles o; ClickSubmit]))
     = submitting.
Proof.
  intros Hv Hs Hi Hp Ho.
  destruct (click_accepted p w Hv Hs Hi) as (Hf1 & Hc1 & Hp1).
  change (run p w [ClickSubmit; FetchSettles o])
    with (step p (step p w ClickSubmit) (FetchSettles o)).
  change (run p w [ClickSubmit; FetchSettles o; ClickSubmit])
    with (step p (step p (step p w ClickSubmit) (FetchSettles o))
            ClickSubmit).
  remember (step p w ClickSubmit) as w1 eqn:E1. clear E1.
  assert (Hf2 : form (step p w1 (FetchSettles o))
                = setIsSubmitting false
                    (setError (Some msg_failed)
                       (setError None (setIsSubmitting true (form w))))).
  { unfold step, dispatchEvent. rewrite Hp1. simpl. rewrite Hf1.
    apply settled_failure. exact Ho. }
  assert (Hc2 : calls (step p w1 (FetchSettles o)) = calls w1)
    by (unfold step, dispatchEvent; rewrite Hp1; reflexivity).
  assert (Hp2 : pending (step p w1 (FetchSettles o)) = pending w)
    by (unfold step, dispatchEvent; rewrite Hp1; reflexivity).
  remember (step p w1 (FetchSettles o)) as w2 eqn:E2. clear E2.
  assert (Hv2 : validate p (form w2) = None) by (rewrite Hf2; exact Hv).
  assert (Hs2 : submitted (form w2) = false) by (rewrite Hf2; exact Hs).
  assert (Hi2 : isSubmitting (form w2) = false) by (rewrite Hf2; reflexivity).
  destruct (click_accepted p w2 Hv2 Hs2 Hi2) as (Hf3 & Hc3 & Hp3).
  split; [rewrite Hc2; exact Hc1 |].
  split; [rewrite Hp2; exact Hp |].
  split.
  - rewrite Hc3, Hc2, Hc1, Hf2, <- app_assoc. reflexivity.
  - split; [rewrite Hp3, Hp2, Hp; reflexivity |].
    rewrite Hf3, Hf2. unfold submissionState. simpl. rewrite Hs.
    reflexivity.
Qed.

Lemma manual_retry_resends_witness :
  length
    (calls (run Examples.survey_props
              (with_form Examples.complete (mount Examples.survey_props))
              [ClickSubmit; FetchSettles ResponseNotOk; ClickSubmit]))
  = 2%nat.
Proof.
  destruct (manual_retry_resends Examples.survey_props
              (with_form Examples.complete (mount Examples.survey_props))
              ResponseNotOk eq_refl eq_refl eq_refl eq_refl)
    as (_ & _ & H & _); [discriminate |].
  rewrite H. reflexivity.
Defined.

(** ** Answers that read as no answer *)

Lemma missing_after_answer (s : State) (q : CampaignQuestion)
    (v : JSValue) :
  missing (questionResponses (handleQuestionResponse (q_id q) v s)) q
  = required q && negb (truthy v).
Proof.
  unfold missing, get. simpl. rewrite lookup_insert_eq. reflexivity.
Qed.

(** X10. The required-questions rule reads an answer by its truthiness. When
    additional questions are on, answering a required question with [false],
    [0], the empty string, [null] or [undefined] leaves the session failing
    validation, with the required-questions reason once the three earlier
    rules pass; answering it with anything else settles that question. *)
Theorem falsy_answer_counts_as_missing (p : Props) (s : State)
    (q : CampaignQuestion) (v : JSValue) :
  cfg_include_additional_questions p = true ->
  In q (campaign_questions p) -> required q = true ->
  (truthy v = false ->
   validate p (handleQuestionResponse (q_id q) v s) <> None
   /\ (fails_consent s = false -> fails_nps p s = false ->
       fails_order p s = false ->
       validate p (handleQuestionResponse (q_id q) v s)
       = Some msg_required))
  /\ (truthy v = true ->
      missing (questionResponses (handleQuestionResponse (q_id q) v s)) q
      = false).
Proof.
  intros Ha Hq Hr. split.
  - intros Hv.
    assert (Hf : fails_required p (handleQuestionResponse (q_id q) v s)
                 = true).
    { unfold fails_required, missingRequired. rewrite Ha. simpl andb.
      apply existsb_exists. exists q. split; [exact Hq |].
      pose proof (missing_after_answer s q v) as Hm.
      rewrite Hr, Hv in Hm. exact Hm. }
    unfold validate. rewrite Hf.
    change (fails_consent (handleQuestionResponse (q_id q) v s))
      with (fails_consent s).
    change (fails_nps p (handleQuestionResponse (q_id q) v s))
      with (fails_nps p s).
    change (fails_order p (handleQuestionResponse (q_id q) v s))
      with (fails_order p s).
    split.
    + destruct (fails_consent s); [discriminate |].
      destruct (fails_nps p s); [discriminate |].
      destruct (fails_order p s); discriminate.
    + intros -> -> ->. reflexivity.
  - intros Hv. rewrite missing_after_answer, Hv. apply andb_false_r.
Qed.

Lemma falsy_answer_counts_as_missing_witness :
  validate
    (Examples.props "ORD-1"
       (Examples.campaign false true
          [Examples.question "q1" "yes_no" true] true true None))
    (handleQuestionResponse "q1" (JBool false) Examples.silent)
  = Some msg_required.
Proof.
  destruct (falsy_answer_counts_as_missing
              (Examples.props "ORD-1"
                 (Examples.campaign false true
                    [Examples.question "q1" "yes_no" true] true true None))
              Examples.silent (Examples.question "q1" "yes_no" true)
              (JBool false) eq_refl (or_introl eq_refl) eq_refl)
    as (H & _).
  destruct (H eq_refl) as (_ & Hv).
  exact (Hv eq_refl eq_refl eq_refl).
Defined.

(** ** Submitting while the recorder is running *)

(** X11. Submitting does not wait for the recorder. In voice mode with no
    finalised blob, a valid submit sends [stopRecording] through the ref and
    then the request, whose payload is built from the blob held at the click
    and so has no audio field; a clip the recorder hands over afterwards
    lands in the session but not in the request already issued. *)
Theorem submit_does_not_wait_for_recorder (p : Props) (w : World)
    (b : Blob) :
  validate p (form w) = None ->
  submitted (form w) = false -> isSubmitting (form w) = false ->
  feedbackType (form w) = voice -> cfg_allowVoice p = true ->
  audioBlob (form w) = None -> recorder w = Some recording ->
  snd (handleSubmit p (form w))
  = [StopRecording; Fetch "/api/save-feedback" (buildFormData p (form w))]
  /\ has "audio" (buildFormData p (form w)) = false
  /\ stops (step p w ClickSubmit) = S (stops w)
  /\ calls (run p w [ClickSubmit; Recorder (Complete (Some b))])
     = (calls w ++ [buildFormData p (form w)])%list
  /\ audioBlob (form (run p w [ClickSubmit; Recorder (Complete (Some b))]))
     = Some b.
Proof.
  intros Hv Hs Hi Hm Ha Hb Hr.
  assert (Hrr : recorderRendered p (form w) = true)
    by (unfold recorderRendered; rewrite Hs, Hm, Ha; reflexivity).
  assert (He : handleSubmit p (form w)
               = (setError None (setIsSubmitting true (form w)),
                  [StopRecording;
                   Fetch "/api/save-feedback" (buildFormData p (form w))])).
  { rewrite (handleSubmit_accepts p (form w) Hv), Hrr. reflexivity. }
  assert (E1 : step p w ClickSubmit
               = {| form := setError None (setIsSubmitting true (form w));
                    recorder := Some recording;
                    stops := stops w + 1;
                    pending := pending w + 1;
                    calls := (calls w ++ [buildFormData p (form w)])%list |}).
  { unfold step, dispatchEvent. rewrite Hs, Hi. simpl orb. cbv iota.
    rewrite He. unfold reconcile. simpl.
    change (recorderRendered p
              (setError None (setIsSubmitting true (form w))))
      with (recorderRendered p (form w)).
    rewrite Hrr, Hr. reflexivity. }
  split; [rewrite He; reflexivity |].
  split.
  { destruct (has "audio" (buildFormData p (form w))) eqn:E;
      [| reflexivity].
    apply has_audio in E as [_ E]. contradiction. }
  split; [rewrite E1; simpl; lia |].
  change (run p w [ClickSubmit; Recorder (Complete (Some b))])
    with (step p (step p w ClickSubmit) (Recorder (Complete (Some b)))).
  rewrite E1. split; reflexivity.
Qed.

Lemma submit_does_not_wait_for_recorder_witness :
  has "audio"
    (buildFormData Examples.bare_props
       (form (run Examples.bare_props (mount Examples.bare_props)
                [ChangeConsent true; Recorder Start]))) = false
  /\ audioBlob
       (form (run Examples.bare_props
                (run Examples.bare_props (mount Examples.bare_props)
                   [ChangeConsent true; Recorder Start])
                [ClickSubmit; Recorder (Complete (Some Examples.clip))]))
     = Some Examples.clip.
Proof.
  destruct (submit_does_not_wait_for_recorder Examples.bare_props
              (run Examples.bare_props (mount Examples.bare_props)
                 [ChangeConsent true; Recorder Start])
              Examples.clip eq_refl eq_refl eq_refl eq_refl eq_refl eq_refl
              eq_refl) as (_ & Ha & _ & _ & Hb).
  split; [exact Ha | exact Hb].
Defined.

(** ** The handler has no guard of its own *)

(** X12. [handleSubmit] never looks at [isSubmitting]: run a second time on
    the state its first run left behind, for a session that passes
    validation, it issues the same request again. Only the disabled button
    stands between a double click and a double submission. *)
Theorem handler_alone_submits_twice (p : Props) (s : State) :
  validate p s = None ->
  isSubmitting (fst (handleSubmit p s)) = true
  /\ networkCalls (snd (handleSubmit p s)) = [buildFormData p s]
  /\ networkCalls (snd (handleSubmit p (fst (handleSubmit p s))))
     = [buildFormData p s].
Proof.
  intros Hv.
  split; [rewrite (handleSubmit_accepts p s Hv); reflexivity |].
  split; [exact (networkCalls_accepted p s Hv) |].
  rewrite (handleSubmit_accepts p s Hv). simpl fst.
  rewrite networkCalls_accepted; [reflexivity | exact Hv].
Qed.

Lemma handler_alone_submits_twice_witness :
  networkCalls
    (snd (handleSubmit Examples.survey_props
            (fst (handleSubmit Examples.survey_props Examples.complete))))
  = [buildFormData Examples.survey_props Examples.complete].
Proof.
  apply (handler_alone_submits_twice Examples.survey_props
           Examples.complete).
  reflexivity.
Defined.

(** ** Score colours *)

(** X13. The form and the dashboard colour a score alike. For every integer
    score, the button of the form is red and the badge of the dashboard is
    red up to 6, both are yellow for 7 and 8, and both are green from 9
    on; the ten buttons carry the scores 1 to 10. *)
Theorem score_colours_agree (n : Z) :
  ((n <= 6)%Z ->
   getScoreColor n = ("bg-red-500 hover:bg-red-600", "bg-red-300")
   /\ Dashboard.badge n = "bg-red-100 text-red-800")
  /\ ((7 <= n <= 8)%Z ->
      getScoreColor n = ("bg-yellow-500 hover:bg-yellow-600", "bg-yellow-300")
      /\ Dashboard.badge n = "bg-yellow-100 text-yellow-800")
  /\ ((9 <= n)%Z ->
      getScoreColor n = ("bg-green-500 hover:bg-green-600", "bg-green-300")
      /\ Dashboard.badge n = "bg-green-100 text-green-800")
  /\ scoreButtons = [1; 2; 3; 4; 5; 6; 7; 8; 9; 10]%Z.
Proof.
  unfold getScoreColor, Dashboard.badge.
  repeat split; try reflexivity;
    destruct (Z.leb_spec n 6), (Z.leb_spec n 8), (Z.leb_spec 9 n),
      (Z.leb_spec 7 n); try reflexivity; lia.
Qed.

Lemma score_colours_agree_witness :
  Dashboard.badge 8 = "bg-yellow-100 text-yellow-800".
Proof.
  destruct (score_colours_agree 8) as (_ & H & _).
  apply H. lia.
Defined.

(** * The voice/text question component *)

Module VTQ := VoiceTextQuestion.

Section VoiceTextQuestionProperties.

Variable question : VTQ.Question.

Lemma vtq_ownerBlob_app (start : option Blob) (l1 l2 : list VTQ.Effect) :
  VTQ.ownerBlob start (l1 ++ l2)%list
  = VTQ.ownerBlob (VTQ.ownerBlob start l1) l2.
Proof. unfold VTQ.ownerBlob. apply fold_left_app. Qed.

Lemma vtq_run_cons (e : VTQ.Event) (es : list VTQ.Event)
    (st : VTQ.State * list VTQ.Effect) :
  VTQ.run question (e :: es) st
  = VTQ.run question es
      (fst (VTQ.dispatchEvent question (fst st) e),
       (snd st ++ snd (VTQ.dispatchEvent question (fst st) e))%list).
Proof.
  unfold VTQ.run. simpl.
  destruct (VTQ.dispatchEvent question (fst st) e). reflexivity.
Qed.

Lemma vtq_consistent_init : VTQ.consistent question (VTQ.init question, []).
Proof.
  unfold VTQ.consistent. simpl.
  destruct (truthy (VTQ.allowVoice question));
    repeat split; congruence.
Qed.

Ltac vtq_close :=
  first [ solve [intuition congruence]
        | solve [repeat split; intros; try congruence; auto] ].

Lemma vtq_consistent_step (st : VTQ.State * list VTQ.Effect)
    (e : VTQ.Event) :
  VTQ.consistent question st ->
  VTQ.consistent question
    (fst (VTQ.dispatchEvent question (fst st) e),
     (snd st ++ snd (VTQ.dispatchEvent question (fst st) e))%list).
Proof.
  destruct st as [s effs]. unfold VTQ.consistent. simpl fst. simpl snd.
  intros (Hp & Hpl & Ho & Hv & Ht).
  assert (Hnone : VTQ.audioBlob s = None ->
                  VTQ.audioPlayerRef s = None /\ VTQ.isPlaying s = false).
  { intros Hb.
    assert (Hr : VTQ.audioPlayerRef s = None).
    { destruct (VTQ.audioPlayerRef s) as [a |]; [| reflexivity].
      specialize (Hp a eq_refl). congruence. }
    split; [exact Hr |].
    destruct (VTQ.isPlaying s); [| reflexivity].
    destruct (Hpl eq_refl Hr). }
  destruct e as [| | v | blob | | |]; unfold VTQ.dispatchEvent.
  - unfold VTQ.showTabs.
    destruct (truthy (VTQ.allowVoice question)) eqn:Ev,
      (truthy (VTQ.allowText question)) eqn:Ex; simpl;
      rewrite ?app_nil_r; vtq_close.
  - unfold VTQ.showTabs.
    destruct (truthy (VTQ.allowVoice question)) eqn:Ev,
      (truthy (VTQ.allowText question)) eqn:Ex; simpl;
      rewrite ?app_nil_r; vtq_close.
  - destruct (VTQ.textareaRendered question s); simpl;
      rewrite ?app_nil_r, ?vtq_ownerBlob_app; simpl; vtq_close.
  - destruct (VTQ.recorderRendered question s) eqn:Er; simpl;
      rewrite ?app_nil_r; [| vtq_close].
    unfold VTQ.recorderRendered in Er.
    destruct (VTQ.responseType s) eqn:Em; [discriminate Er |].
    destruct (VTQ.audioBlob s) eqn:Eb; [discriminate Er |].
    destruct (Hnone eq_refl) as [Hr Hi].
    rewrite vtq_ownerBlob_app. simpl. rewrite Hr, Hi.
    vtq_close.
  - destruct (VTQ.playbackRendered question s) eqn:Er; simpl;
      rewrite ?app_nil_r; [| vtq_close].
    unfold VTQ.playbackRendered in Er.
    destruct (VTQ.responseType s) eqn:Em; [discriminate Er |].
    unfold VTQ.togglePlayback.
    destruct (VTQ.audioBlob s) as [b |] eqn:Eb; [| discriminate Er].
    assert (Hplayer : forall a,
               match VTQ.audioPlayerRef s with
               | Some a' => Some a'
               | None => Some b
               end = Some a -> Some b = Some a).
    { intros a. destruct (VTQ.audioPlayerRef s) as [a' |] eqn:Ea.
      - intros [= <-]. apply Hp. reflexivity.
      - intros H. exact H. }
    assert (Hsome : match VTQ.audioPlayerRef s with
                    | Some a' => Some a'
                    | None => Some b
                    end <> None)
      by (destruct (VTQ.audioPlayerRef s); discriminate).
    destruct (VTQ.isPlaying s) eqn:Ei; simpl;
      rewrite vtq_ownerBlob_app; simpl; rewrite ?Em, ?Eb;
      vtq_close.
  - destruct (VTQ.playbackRendered question s) eqn:Er; simpl;
      rewrite ?app_nil_r; [| vtq_close].
    unfold VTQ.discardRecording. simpl.
    rewrite !vtq_ownerBlob_app. simpl.
    destruct (VTQ.audioPlayerRef s); simpl; vtq_close.
  - destruct (VTQ.audioPlayerRef s) as [a |] eqn:Ea,
      (VTQ.isPlaying s) eqn:Ei; simpl; rewrite ?app_nil_r, ?Ea, ?Ei;
      vtq_close.
Qed.

Lemma vtq_consistent_run (es : list VTQ.Event) :
  forall st, VTQ.consistent question st ->
             VTQ.consistent question (VTQ.run question es st).
Proof.
  induction es as [| e rest IH]; intros st H; [exact H |].
  rewrite vtq_run_cons. apply IH. apply vtq_consistent_step. exact H.
Qed.

End VoiceTextQuestionProperties.

(** X14. The owner of a voice/text question always holds the blob the
    component holds: after any events, the argument of the last
    [onVoiceRecording] call (nothing, if there was no call) is the
    component's own [audioBlob]. *)
Theorem owner_holds_component_blob (question : VTQ.Question)
    (es : list VTQ.Event) :
  VTQ.ownerBlob None
    (snd (VTQ.run question es (VTQ.init question, [])))
  = VTQ.audioBlob (fst (VTQ.run question es (VTQ.init question, []))).
Proof.
  apply (vtq_consistent_run question es _ (vtq_consistent_init question)).
Qed.

(** X15. The player never plays a recording that is gone. After any events,
    a player that exists was created for the blob now held, and
    [isPlaying] is set only while there is such a player, hence only while a
    blob is held. *)
Theorem player_plays_held_blob (question : VTQ.Question)
    (es : list VTQ.Event) :
  (forall a,
      VTQ.audioPlayerRef (fst (VTQ.run question es (VTQ.init question, [])))
      = Some a ->
      VTQ.audioBlob (fst (VTQ.run question es (VTQ.init question, [])))
      = Some a)
  /\ (VTQ.isPlaying (fst (VTQ.run question es (VTQ.init question, [])))
      = true ->
      exists a,
        VTQ.audioPlayerRef
          (fst (VTQ.run question es (VTQ.init question, []))) = Some a
        /\ VTQ.audioBlob
             (fst (VTQ.run question es (VTQ.init question, []))) = Some a).
Proof.
  destruct (vtq_consistent_run question es _ (vtq_consistent_init question))
    as (Hp & Hpl & _).
  split; [exact Hp |].
  intros Hi. specialize (Hpl Hi).
  destruct (VTQ.audioPlayerRef
              (fst (VTQ.run question es (VTQ.init question, []))))
    as [a |] eqn:Ea; [| contradiction].
  exists a. split; [reflexivity |]. apply Hp. reflexivity.
Qed.

Lemma player_plays_held_blob_witness :
  exists a,
    VTQ.audioPlayerRef
      (fst (VTQ.run
              {| VTQ.allowVoice := JBool true; VTQ.allowText := JBool true |}
              [VTQ.RecordingComplete (Some Examples.clip); VTQ.ClickPlayback;
               VTQ.ClickTextTab]
              (VTQ.init {| VTQ.allowVoice := JBool true;
                           VTQ.allowText := JBool true |}, [])))
    = Some a
    /\ VTQ.audioBlob
         (fst (VTQ.run
                 {| VTQ.allowVoice := JBool true;
                    VTQ.allowText := JBool true |}
                 [VTQ.RecordingComplete (Some Examples.clip);
                  VTQ.ClickPlayback; VTQ.ClickTextTab]
                 (VTQ.init {| VTQ.allowVoice := JBool true;
                              VTQ.allowText := JBool true |}, [])))
       = Some a.
Proof.
  apply (player_plays_held_blob
           {| VTQ.allowVoice := JBool true; VTQ.allowText := JBool true |}
           [VTQ.RecordingComplete (Some Examples.clip); VTQ.ClickPlayback;
            VTQ.ClickTextTab]).
  reflexivity.
Defined.

(** X16. Discarding undoes a recording completely. From any state in which
    the recorder is on the page, a recording that completes with a blob, is
    played and is then discarded leaves the component exactly as it was
    before, and the owner is told first the blob and last that there is
    none. *)
Theorem discard_undoes_recording (question : VTQ.Question)
    (es : list VTQ.Event) (b : Blob) :
  VTQ.recorderRendered question
    (fst (VTQ.run question es (VTQ.init question, []))) = true ->
  VTQ.run question
    [VTQ.RecordingComplete (Some b); VTQ.ClickPlayback; VTQ.ClickDiscard]
    (VTQ.run question es (VTQ.init question, []))
  = (fst (VTQ.run question es (VTQ.init question, [])),
     (snd (VTQ.run question es (VTQ.init question, []))
      ++ [VTQ.onVoiceRecording (Some b); VTQ.play; VTQ.pause;
          VTQ.onVoiceRecording None])%list).
Proof.
  intros Hr.
  destruct (vtq_consistent_run question es _ (vtq_consistent_init question))
    as (Hp & Hpl & _).
  destruct (VTQ.run question es (VTQ.init question, [])) as [s effs].
  simpl fst in *. simpl snd in *.
  unfold VTQ.recorderRendered in Hr.
  destruct s as [rt blob rec pl ref]. simpl in *.
  destruct rt; [discriminate Hr |].
  destruct blob; [discriminate Hr |].
  assert (ref = None)
    by (destruct ref as [a |]; [specialize (Hp a eq_refl); discriminate Hp
                               | reflexivity]).
  subst ref.
  assert (pl = false)
    by (destruct pl; [destruct (Hpl eq_refl eq_refl) | reflexivity]).
  subst pl.
  unfold VTQ.run. simpl. unfold VTQ.recorderRendered, VTQ.playbackRendered.
  simpl. rewrite Hr. simpl. rewrite <- !app_assoc. reflexivity.
Qed.

Lemma discard_undoes_recording_witness :
  fst (VTQ.run
         {| VTQ.allowVoice := JBool true; VTQ.allowText := JNull |}
         [VTQ.RecordingComplete (Some Examples.clip); VTQ.ClickPlayback;
          VTQ.ClickDiscard]
         (VTQ.run {| VTQ.allowVoice := JBool true; VTQ.allowText := JNull |}
            []
            (VTQ.init {| VTQ.allowVoice := JBool true;
                         VTQ.allowText := JNull |}, [])))
  = VTQ.init {| VTQ.allowVoice := JBool true; VTQ.allowText := JNull |}.
Proof.
  rewrite (discard_undoes_recording
             {| VTQ.allowVoice := JBool true; VTQ.allowText := JNull |}
             [] Examples.clip eq_refl).
  reflexivity.
Defined.

(** X17. A voice/text question shows one panel at a time. After any events,
    exactly one of the text area, the recorder and the playback controls is
    on the page when the question allows voice or text, and none of them
    when it allows neither. *)
Theorem one_panel_at_a_time (question : VTQ.Question)
    (es : list VTQ.Event) :
  VTQ.panels question (fst (VTQ.run question es (VTQ.init question, [])))
  = Nat.b2n (truthy (VTQ.allowVoice question)
             || truthy (VTQ.allowText question)).
Proof.
  destruct (vtq_consistent_run question es _ (vtq_consistent_init question))
    as (_ & _ & _ & Hv & Ht).
  destruct (VTQ.run question es (VTQ.init question, [])) as [s effs].
  simpl fst in *.
  unfold VTQ.panels, VTQ.textareaRendered, VTQ.recorderRendered,
    VTQ.playbackRendered.
  destruct (VTQ.responseType s).
  - destruct (truthy (VTQ.allowText question)) eqn:Ex.
    + destruct (VTQ.audioBlob s); rewrite orb_true_r; reflexivity.
    + rewrite (Ht eq_refl eq_refl). destruct (VTQ.audioBlob s); reflexivity.
  - rewrite (Hv eq_refl). destruct (VTQ.audioBlob s); reflexivity.
Qed.

(** * The dashboard *)

Module D := Dashboard.

(** ** Question responses *)

Section DashboardResponses.

Lemma responseMap_fold (rs : list D.QuestionResponse) :
  forall (m : gmap string string) (k : string),
    fold_left (fun m r => <[D.question_id r := D.response_value r]> m) rs m
      !! k
    = match D.lastResponse k rs with
      | Some v => Some v
      | None => m !! k
      end.
Proof.
  induction rs as [| r rest IH]; intros m k; [reflexivity |].
  simpl. rewrite IH.
  destruct (D.lastResponse k rest); [reflexivity |].
  rewrite lookup_insert.
  destruct (String.eqb_spec (D.question_id r) k) as [-> | Hne].
  - rewrite decide_True by reflexivity. reflexivity.
  - rewrite decide_False by exact Hne. reflexivity.
Qed.

Lemma responseMap_lookup (rs : list D.QuestionResponse) (k : string) :
  D.responseMap rs !! k = D.lastResponse k rs.
Proof.
  unfold D.responseMap. rewrite responseMap_fold.
  destruct (D.lastResponse k rs); [reflexivity | apply lookup_empty].
Qed.

End DashboardResponses.

(** X18. When an entry carries several responses to one question, the last
    one is the one shown and exported: the response map holds, for every
    question id, the value of the last response with that id. A question
    without a response, or whose last response is empty, reads
    "No response" in the table and is an empty cell in the export. *)
Theorem last_response_is_shown (f : D.FeedbackEntry) (q : D.Question) :
  (forall k,
      D.responseMap (D.question_responses f) !! k
      = D.lastResponse k (D.question_responses f))
  /\ D.responseLine f q
     = (D.dq_text q,
        match D.lastResponse (D.dq_id q) (D.question_responses f) with
        | Some (String c v) => String c v
        | Some EmptyString | None => "No response"
        end)
  /\ D.questionCell f q
     = D.CStr match D.lastResponse (D.dq_id q) (D.question_responses f) with
              | Some v => v
              | None => ""
              end.
Proof.
  split; [intros k; apply responseMap_lookup |].
  unfold D.responseLine, D.questionCell. rewrite responseMap_lookup.
  destruct (D.lastResponse (D.dq_id q) (D.question_responses f))
    as [[| c v] |]; split; reflexivity.
Qed.

(** ** The exported rows *)

Section DashboardExport.

Lemma getProp_setProp (col key : string) (v : D.Cell) (row : D.Row) :
  D.getProp col (D.setProp key v row)
  = if String.eqb key col then Some v else D.getProp col row.
Proof.
  unfold D.getProp.
  induction row as [| [k x] rest IH]; simpl.
  - destruct (String.eqb key col); reflexivity.
  - destruct (String.eqb_spec k key) as [-> | Hk]; simpl.
    + destruct (String.eqb key col); reflexivity.
    + destruct (String.eqb_spec k col) as [-> | Hc]; simpl.
      * destruct (String.eqb_spec key col) as [-> | _];
          [contradiction | reflexivity].
      * exact IH.
Qed.

Lemma getProp_app (col : string) (r1 r2 : D.Row) :
  D.getProp col (r1 ++ r2)%list
  = match D.getProp col r1 with
    | Some x => Some x
    | None => D.getProp col r2
    end.
Proof.
  unfold D.getProp. induction r1 as [| [k x] rest IH]; simpl;
    [reflexivity |].
  destruct (String.eqb k col); [reflexivity | exact IH].
Qed.

Lemma setProp_app (key : string) (v : D.Cell) (r1 r2 : D.Row) :
  existsb (fun e => String.eqb (fst e) key) r1 = false ->
  D.setProp key v (r1 ++ r2)%list = (r1 ++ D.setProp key v r2)%list.
Proof.
  induction r1 as [| [k x] rest IH]; simpl; [reflexivity |].
  intros H. apply orb_false_elim in H as [Hk Hrest].
  rewrite Hk, (IH Hrest). reflexivity.
Qed.

Lemma keys_setProp (key : string) (v : D.Cell) (row : D.Row) :
  D.keys (D.setProp key v row)
  = if existsb (fun e => String.eqb (fst e) key) row
    then D.keys row else (D.keys row ++ [key])%list.
Proof.
  unfold D.keys. induction row as [| [k x] rest IH]; simpl; [reflexivity |].
  destruct (String.eqb k key); simpl; [reflexivity |].
  rewrite IH. destruct (existsb _ rest); reflexivity.
Qed.

Lemma existsb_key (key : string) (row : D.Row) :
  existsb (fun e => String.eqb (fst e) key) row = false ->
  key ∉ D.keys row.
Proof.
  unfold D.keys. induction row as [| [k x] rest IH]; simpl; intros H.
  - apply not_elem_of_nil.
  - apply orb_false_elim in H as [Hk Hrest].
    apply not_elem_of_cons. split; [| exact (IH Hrest)].
    apply String.eqb_neq in Hk. congruence.
Qed.

Variable fmt : string -> string.
Variable f : D.FeedbackEntry.

Lemma questionColumn_prefix (q : D.Question) :
  substring 0 3 (D.questionColumn q) = "Q: ".
Proof. unfold D.questionColumn. destruct (D.dq_text q); reflexivity. Qed.

Lemma base_has_no_question_column (q : D.Question) :
  existsb (fun e => String.eqb (fst e) (D.questionColumn q))
    (D.baseData fmt f) = false.
Proof. reflexivity. Qed.

Lemma columns_fold (qs : list D.Question) :
  forall extra : D.Row,
    fold_left
      (fun row q => D.setProp (D.questionColumn q) (D.questionCell f q) row)
      qs (D.baseData fmt f ++ extra)%list
    = (D.baseData fmt f
       ++ fold_left
            (fun row q =>
               D.setProp (D.questionColumn q) (D.questionCell f q) row)
            qs extra)%list.
Proof.
  induction qs as [| q rest IH]; intros extra; [reflexivity |].
  cbn [fold_left].
  rewrite setProp_app by apply base_has_no_question_column.
  apply IH.
Qed.

Lemma columns_invariant (qs : list D.Question) :
  forall extra : D.Row,
    NoDup (D.keys extra) ->
    Forall (fun k => substring 0 3 k = "Q: ") (D.keys extra) ->
    let row :=
      fold_left
        (fun row q =>
           D.setProp (D.questionColumn q) (D.questionCell f q) row)
        qs extra in
    NoDup (D.keys row)
    /\ Forall (fun k => substring 0 3 k = "Q: ") (D.keys row)
    /\ (length row <= length qs + length extra)%nat
    /\ forall col,
         D.getProp col row
         = match D.lastWithColumn col qs with
           | Some q => Some (D.questionCell f q)
           | None => D.getProp col extra
           end.
Proof.
  induction qs as [| q rest IH]; intros extra Hn Hq;
    cbn [fold_left length D.lastWithColumn]; cbv zeta.
  - repeat split; auto.
  - assert (Hn' : NoDup (D.keys (D.setProp (D.questionColumn q)
                                   (D.questionCell f q) extra))).
    { rewrite keys_setProp.
      destruct (existsb _ extra) eqn:E; [exact Hn |].
      apply NoDup_app. split; [exact Hn |]. split.
      - intros k Hk Hk'. apply list_elem_of_singleton in Hk'. subst k.
        exact (existsb_key _ _ E Hk).
      - apply NoDup_singleton. }
    assert (Hq' : Forall (fun k => substring 0 3 k = "Q: ")
                    (D.keys (D.setProp (D.questionColumn q)
                               (D.questionCell f q) extra))).
    { rewrite keys_setProp.
      destruct (existsb _ extra); [exact Hq |].
      apply Forall_app. split; [exact Hq |].
      apply Forall_singleton. apply questionColumn_prefix. }
    assert (Hlen : (length (D.setProp (D.questionColumn q)
                              (D.questionCell f q) extra)
                    <= S (length extra))%nat).
    { pose proof (f_equal (@length string)
                    (keys_setProp (D.questionColumn q)
                       (D.questionCell f q) extra)) as E.
      unfold D.keys in E. rewrite length_map in E. rewrite E.
      destruct (existsb _ extra);
        rewrite ?length_app, length_map; simpl; lia. }
    destruct (IH _ Hn' Hq') as (H1 & H2 & H3 & H4).
    split; [exact H1 |]. split; [exact H2 |]. split; [lia |].
    intros col. rewrite H4.
    destruct (D.lastWithColumn col rest); [reflexivity |].
    rewrite getProp_setProp.
    destruct (String.eqb (D.questionColumn q) col); reflexivity.
Qed.

Lemma feedbackRow_split :
  D.feedbackRow fmt f = (D.baseData fmt f ++ D.questionColumns f)%list.
Proof.
  unfold D.feedbackRow, D.questionColumns.
  rewrite <- columns_fold, app_nil_r. reflexivity.
Qed.

End DashboardExport.

(** X19. Question columns never overwrite the six base columns of an
    exported row: the row is the base columns followed by the question
    columns, every question column name starts with "Q: ", and all column
    names are distinct. Two questions with the same text share one column,
    which holds the answer to the later one; so a row has at most one column
    per question beyond the six. *)
Theorem export_row_columns (fmt : string -> string) (f : D.FeedbackEntry) :
  D.feedbackRow fmt f = (D.baseData fmt f ++ D.questionColumns f)%list
  /\ NoDup (D.keys (D.feedbackRow fmt f))
  /\ Forall (fun k => substring 0 3 k = "Q: ") (D.keys (D.questionColumns f))
  /\ (length (D.feedbackRow fmt f) <= 6 + length (D.campaignQuestions f))%nat
  /\ forall col,
       D.getProp col (D.questionColumns f)
       = option_map (D.questionCell f)
           (D.lastWithColumn col (D.campaignQuestions f)).
Proof.
  destruct (columns_invariant f (D.campaignQuestions f) []
              (NoDup_nil_2) (Forall_nil_2 _))
    as (Hn & Hq & Hl & Hg).
  fold (D.questionColumns f) in Hn, Hq, Hl, Hg.
  split; [apply feedbackRow_split |].
  split.
  - rewrite feedbackRow_split. unfold D.keys. rewrite map_app.
    apply NoDup_app. split; [| split; [| exact Hn]].
    + apply (bool_decide_unpack _). vm_compute. exact I.
    + intros k Hb Hk.
      rewrite Forall_forall in Hq. specialize (Hq k Hk).
      simpl in Hb.
      repeat (apply elem_of_cons in Hb as [-> | Hb]; [discriminate Hq |]).
      apply elem_of_nil in Hb. exact Hb.
  - split; [exact Hq |]. split.
    + rewrite feedbackRow_split, length_app. simpl in *. lia.
    + intros col. rewrite Hg.
      destruct (D.lastWithColumn col (D.campaignQuestions f)); reflexivity.
Qed.

(** ** The feedback column *)

Section DashboardFeedbackCell.

Lemma string_length_app (a b : string) :
  String.length (a ++ b) = (String.length a + String.length b)%nat.
Proof. induction a as [| c a IH]; simpl; [reflexivity | rewrite IH; lia]. Qed.

Lemma substring_head_length (n : nat) :
  forall t, String.length (substring 0 n t) = Nat.min n (String.length t).
Proof.
  induction n as [| n IH]; intros [| c t]; simpl; try reflexivity.
  rewrite IH. reflexivity.
Qed.

Lemma substring_head_all (n : nat) :
  forall t, (String.length t <= n)%nat -> substring 0 n t = t.
Proof.
  induction n as [| n IH]; intros [| c t]; simpl; intros H;
    try reflexivity; [lia |].
  rewrite IH by lia. reflexivity.
Qed.

Lemma string_app_nil (a : string) : a ++ "" = a.
Proof.
  induction a as [| c a IH]; [reflexivity |].
  change (String c a ++ "") with (String c (a ++ "")).
  f_equal. exact IH.
Qed.

Lemma truncate_spec (t : string) :
  (String.length
     (substring 0 100 t
      ++ (if (100 <? String.length t)%nat then "..." else "")) <= 103)%nat
  /\ ((String.length t <= 100)%nat ->
      substring 0 100 t
      ++ (if (100 <? String.length t)%nat then "..." else "") = t)
  /\ ((100 < String.length t)%nat ->
      substring 0 100 t
      ++ (if (100 <? String.length t)%nat then "..." else "")
      = substring 0 100 t ++ "..."
      /\ String.length
           (substring 0 100 t
            ++ (if (100 <? String.length t)%nat then "..." else ""))
         = 103%nat).
Proof.
  pose proof (substring_head_length 100 t) as Hl.
  rewrite string_length_app, Hl.
  destruct (Nat.ltb_spec 100 (String.length t)) as [Hlt | Hge];
    cbn [String.length].
  - split; [lia |]. split; [lia |]. intros _. split; [reflexivity | lia].
  - split; [lia |]. split; [| lia].
    intros _. rewrite string_app_nil. apply substring_head_all. exact Hge.
Qed.

End DashboardFeedbackCell.

(** X20. The feedback column shows at most 103 characters. An entry with a
    non-empty transcription shows it whole when it has at most 100
    characters, and otherwise its first 100 characters followed by "...";
    an entry without one (missing or empty) shows the voice marker when it
    has a voice file and "No feedback provided" when it has not. *)
Theorem feedback_cell_truncates (f : D.FeedbackEntry) :
  match D.transcription f with
  | Some (String c t) =>
      exists shown,
        D.feedbackCell f = D.Transcript shown
        /\ (String.length shown <= 103)%nat
        /\ ((String.length (String c t) <= 100)%nat -> shown = String c t)
        /\ ((100 < String.length (String c t))%nat ->
            shown = substring 0 100 (String c t) ++ "..."
            /\ String.length shown = 103%nat)
  | Some EmptyString | None =>
      D.feedbackCell f
      = if truthy_opt_string (D.voice_file_url f)
        then D.HasVoiceRecording else D.NoFeedbackProvided
  end.
Proof.
  unfold D.feedbackCell.
  destruct (D.transcription f) as [[| c t] |]; try reflexivity.
  exists (substring 0 100 (String c t)
          ++ (if (100 <? String.length (String c t))%nat
              then "..." else "")).
  split; [reflexivity | apply truncate_spec].
Qed.

(** ** Loading the data *)

Section DashboardLoading.

Lemma fetch_fields (r : D.FetchResult) (s : D.State) :
  D.loading (D.fetchDashboardData r s) = false
  /\ D.analysisRunning (D.fetchDashboardData r s) = D.analysisRunning s
  /\ D.error (D.fetchDashboardData r s)
     = match D.failureMessage r with
       | Some m => Some m
       | None => D.error s
       end
  /\ D.data (D.fetchDashboardData r s)
     = match D.fetchedData r with
       | Some d => Some d
       | None => D.data s
       end.
Proof.
  unfold D.fetchDashboardData.
  destruct r as [[m |] result | | [m |]]; simpl;
    try destruct (truthy_string m); repeat split.
Qed.

Lemma polls_success_error (rs : list D.FetchResult) :
  forall s,
    forallb (fun r => match D.failureMessage r with
                      | Some _ => false
                      | None => true
                      end) rs = true ->
    D.error (D.polls rs s) = D.error s.
Proof.
  induction rs as [| r rest IH]; intros s H; [reflexivity |].
  simpl in H. apply andb_prop in H as [Hr Hrest].
  unfold D.polls in *. simpl. rewrite (IH _ Hrest).
  destruct (fetch_fields r s) as (_ & _ & He & _). rewrite He.
  destruct (D.failureMessage r); [discriminate Hr | reflexivity].
Qed.

Lemma polls_data (rs : list D.FetchResult) :
  forall s,
    D.data (D.polls rs s)
    = match D.lastFetched rs with
      | Some d => Some d
      | None => D.data s
      end.
Proof.
  induction rs as [| r rest IH]; intros s; [reflexivity |].
  unfold D.polls in *. simpl. rewrite IH.
  destruct (D.lastFetched rest); [reflexivity |].
  apply fetch_fields.
Qed.

Lemma polls_loading (rs : list D.FetchResult) :
  forall s,
    D.loading (D.polls rs s) = match rs with [] => D.loading s | _ => false end.
Proof.
  induction rs as [| r rest IH]; intros s; [reflexivity |].
  unfold D.polls in *. simpl. rewrite IH.
  destruct rest; [apply fetch_fields | reflexivity].
Qed.

End DashboardLoading.

(** X21. A failed fetch hides the dashboard for good. Once a fetch has failed
    with a non-empty message, the page shows that message after the failure
    and after any number of later fetches that succeed, although the data of
    the latest success is stored: no success ever clears [error]. *)
Theorem failed_fetch_sticks (s : D.State) (r : D.FetchResult) (m : string)
    (later : list D.FetchResult) :
  D.failureMessage r = Some m -> truthy_string m = true ->
  forallb (fun r' => match D.failureMessage r' with
                     | Some _ => false
                     | None => true
                     end) later = true ->
  D.render (D.polls (r :: later) s) = D.ErrorView m
  /\ D.data (D.polls (r :: later) s)
     = match D.lastFetched later with
       | Some d => Some d
       | None => D.data s
       end.
Proof.
  intros Hr Hm Hl.
  change (D.polls (r :: later) s)
    with (D.polls later (D.fetchDashboardData r s)).
  destruct (fetch_fields r s) as (_ & _ & He & Hd).
  rewrite Hr in He.
  assert (Hdata : D.data (D.polls later (D.fetchDashboardData r s))
                  = match D.lastFetched later with
                    | Some d => Some d
                    | None => D.data s
                    end).
  { rewrite polls_data, Hd.
    destruct (D.lastFetched later); [reflexivity |].
    destruct r as [[m' |] result | | [m' |]]; simpl in Hr |- *;
      try discriminate Hr; try reflexivity.
    unfold truthy_opt_string.
    destruct (truthy_string m'); [reflexivity | discriminate Hr]. }
  split; [| exact Hdata].
  unfold D.render.
  rewrite polls_loading, (polls_success_error later _ Hl), He.
  assert (Hload : match later with
                  | [] => D.loading (D.fetchDashboardData r s)
                  | _ :: _ => false
                  end = false)
    by (destruct later; [apply fetch_fields | reflexivity]).
  rewrite Hload. unfold truthy_opt_string, D.orElse. rewrite Hm.
  destruct (D.data (D.polls later (D.fetchDashboardData r s)));
    reflexivity.
Qed.

Lemma failed_fetch_sticks_witness :
  D.render
    (D.polls
       [D.NotOk;
        D.Json None {| D.dailySummaries := []; D.recentFeedback := [] |}]
       D.init)
  = D.ErrorView D.msg_fetch.
Proof.
  apply (failed_fetch_sticks D.init D.NotOk D.msg_fetch
           [D.Json None {| D.dailySummaries := [];
                           D.recentFeedback := [] |}]);
    reflexivity.
Defined.

(** X22. The loading line is shown only until the first fetch settles, and
    the data held is that of the latest successful fetch. After any
    non-empty run of fetch results [loading] is off, whatever the results
    were, and [data] is the result of the last success among them, if there
    was one, and what it was before otherwise. *)
Theorem data_is_latest_success (s : D.State) (r : D.FetchResult)
    (rs : list D.FetchResult) :
  D.loading (D.polls (r :: rs) s) = false
  /\ D.render (D.polls (r :: rs) s) <> D.LoadingView
  /\ D.render D.init = D.LoadingView
  /\ D.data (D.polls (r :: rs) s)
     = match D.lastFetched (r :: rs) with
       | Some d => Some d
       | None => D.data s
       end.
Proof.
  assert (Hl : D.loading (D.polls (r :: rs) s) = false)
    by (rewrite polls_loading; reflexivity).
  split; [exact Hl |]. split.
  - unfold D.render. rewrite Hl.
    destruct (D.data _); [destruct (truthy_opt_string _) |]; discriminate.
  - split; [reflexivity | apply polls_data].
Qed.

(** ** Running the analysis *)

(** X23. The analysis reports success whatever the refresh does. When the
    POST is ok, [runAnalysis] refreshes and then alerts that the dashboard
    has been updated, whether the refresh succeeded or not: the state it
    leaves is that of the refresh, so after a refresh that failed the page
    shows the error while the alert said updated. When the POST is not ok or
    throws, it alerts the failure, issues no refresh and leaves data, error
    and loading as they were. In every case [analysisRunning] ends up
    off. *)
Theorem analysis_alert_ignores_refresh (post : D.PostOutcome)
    (refresh : D.FetchResult) (s : D.State) :
  snd (D.runAnalysis D.PostOk refresh s)
  = [D.PostRunAnalysis; D.GetDashboard; D.Alert D.msg_analysis_done]
  /\ D.analysisRunning (fst (D.runAnalysis post refresh s)) = false
  /\ D.render (fst (D.runAnalysis D.PostOk refresh s))
     = D.render (D.fetchDashboardData refresh s)
  /\ D.data (fst (D.runAnalysis D.PostOk refresh s))
     = D.data (D.fetchDashboardData refresh s)
  /\ (forall m,
        D.failureMessage refresh = Some m -> truthy_string m = true ->
        D.render (fst (D.runAnalysis D.PostOk refresh s)) = D.ErrorView m)
  /\ (post <> D.PostOk ->
      snd (D.runAnalysis post refresh s)
      = [D.PostRunAnalysis; D.Alert D.msg_analysis_failed]
      /\ D.data (fst (D.runAnalysis post refresh s)) = D.data s
      /\ D.error (fst (D.runAnalysis post refresh s)) = D.error s
      /\ D.loading (fst (D.runAnalysis post refresh s)) = D.loading s).
Proof.
  split; [reflexivity |].
  split; [destruct post; reflexivity |].
  assert (Hfields :
            D.loading (D.fetchDashboardData refresh
                         (D.setAnalysisRunning true s))
            = D.loading (D.fetchDashboardData refresh s)
            /\ D.error (D.fetchDashboardData refresh
                          (D.setAnalysisRunning true s))
               = D.error (D.fetchDashboardData refresh s)
            /\ D.data (D.fetchDashboardData refresh
                         (D.setAnalysisRunning true s))
               = D.data (D.fetchDashboardData refresh s)).
  { destruct (fetch_fields refresh (D.setAnalysisRunning true s))
      as (Hl1 & _ & He1 & Hd1).
    destruct (fetch_fields refresh s) as (Hl2 & _ & He2 & Hd2).
    rewrite Hl1, Hl2, He1, He2, Hd1, Hd2. repeat split. }
  destruct Hfields as (Hl & He & Hd).
  assert (Hrender : D.render (fst (D.runAnalysis D.PostOk refresh s))
                    = D.render (D.fetchDashboardData refresh s)).
  { change (D.render (fst (D.runAnalysis D.PostOk refresh s)))
      with (D.render (D.fetchDashboardData refresh
                        (D.setAnalysisRunning true s))).
    unfold D.render. rewrite Hl, He, Hd. reflexivity. }
  split; [exact Hrender |].
  split; [exact Hd |].
  split.
  - intros m Hr Hm. rewrite Hrender. unfold D.render.
    destruct (fetch_fields refresh s) as (Hl2 & _ & He2 & _).
    rewrite Hr in He2. rewrite Hl2, He2.
    unfold truthy_opt_string, D.orElse. rewrite Hm.
    destruct (D.data (D.fetchDashboardData refresh s)); reflexivity.
  - intros Hp. destruct post; [contradiction | |]; repeat split.
Qed.

Lemma analysis_alert_ignores_refresh_witness :
  D.render (fst (D.runAnalysis D.PostOk D.NotOk D.init))
  = D.ErrorView D.msg_fetch
  /\ snd (D.runAnalysis D.PostThrown D.NotOk D.init)
     = [D.PostRunAnalysis; D.Alert D.msg_analysis_failed].
Proof.
  destruct (analysis_alert_ignores_refresh D.PostThrown D.NotOk D.init)
    as (_ & _ & _ & _ & Hr & Hp).
  split.
  - apply (Hr D.msg_fetch); reflexivity.
  - apply Hp. discriminate.
Defined.

(** ** The chart and the statistics *)

(** X24. The chart runs the other way round from the summaries: it has one
    point per daily summary, in reverse order, so the summary shown in the
    "Latest Daily Summary" card, the first of the list, is the last point of
    the chart. *)
Theorem chart_ends_with_latest (fmt : string -> string)
    (d : D.DashboardData) :
  length (D.chartData fmt d) = length (D.dailySummaries d)
  /\ rev (D.chartData fmt d)
     = map (fun s => (fmt (D.date s), D.nps_average s)) (D.dailySummaries d)
  /\ last (D.chartData fmt d)
     = option_map (fun s => (fmt (D.date s), D.nps_average s))
         (D.latestSummary d).
Proof.
  unfold D.chartData, D.latestSummary.
  split; [rewrite length_rev, length_map; reflexivity |].
  split; [apply rev_involutive |].
  destruct (D.dailySummaries d) as [| s rest]; [reflexivity |].
  simpl. apply last_snoc.
Qed.

Lemma saysVoice_row (fmt : string -> string) (f : D.FeedbackEntry) :
  D.saysVoice (D.feedbackRow fmt f) = truthy_opt_string (D.voice_file_url f).
Proof.
  unfold D.saysVoice. rewrite feedbackRow_split, getProp_app.
  unfold D.baseData, D.getProp. simpl.
  destruct (truthy_opt_string (D.voice_file_url f)); reflexivity.
Qed.

(** X25. The "Voice Recordings" figure counts the entries with a non-empty
    voice file URL; it never exceeds the number of responses, and it is the
    number of rows of the exported feedback sheet whose "Has Voice
    Recording" column says "Yes". *)
Theorem voice_count_matches_export (fmt : string -> string)
    (d : D.DashboardData) :
  (D.voiceRecordings d <= D.totalResponses d)%nat
  /\ D.voiceRecordings d
     = length (List.filter D.saysVoice
                 (map (D.feedbackRow fmt) (D.recentFeedback d))).
Proof.
  unfold D.voiceRecordings, D.totalResponses. split.
  - induction (D.recentFeedback d) as [| f rest IH]; simpl; [lia |].
    destruct (truthy_opt_string (D.voice_file_url f)); simpl; lia.
  - induction (D.recentFeedback d) as [| f rest IH]; [reflexivity |].
    simpl. rewrite saysVoice_row.
    destruct (truthy_opt_string (D.voice_file_url f)); simpl;
      rewrite IH; reflexivity.
Qed.
